(** * Image Fetcher (image_dl.py): a shallow embedding and its properties

    The program downloads one image: it ensures a target directory, reads a
    URL, issues one HTTP GET, derives a file name from the response and the
    URL, avoids name collisions and streams the body to disk.

    Text is modelled by [string], holding the UTF-8 encoding of the Python
    text.  [lower] acts on the ASCII letters, which is all the suffix tests
    of the program can see; [strip_ws] removes every character
    [str.isspace()] accepts, ASCII or not.  The file system, the network,
    the clock and the parts of the Python runtime that are tables or
    platform code are collected in an environment record [Env] and a
    mutable [World].  Library functions the
    program calls ([urlparse], [unquote], [os.path.join], [os.path.splitext])
    follow their CPython sources.  Interrupts that arrive while the program
    runs are outside the model, except as an outcome of [input()]. *)

From Stdlib Require Import Ascii String.
From stdpp Require Import base strings list gmap pretty.

(** ** Python [str] methods *)

Module PyStr.

(** [s.startswith(p)] *)
Definition startswith (s p : string) : bool := String.prefix p s.

(** [s.startswith((p1, p2, ...))] *)
Definition startswith_any (s : string) (ps : list string) : bool :=
  existsb (startswith s) ps.

(** [s.endswith(suf)]: [s] is [suf], or the tail of [s] ends with [suf]. *)
Fixpoint endswith (s suf : string) : bool :=
  if String.eqb s suf then true
  else match s with
       | EmptyString => false
       | String _ s' => endswith s' suf
       end.

(** [sub in s] *)
Fixpoint contains (sub s : string) : bool :=
  if String.prefix sub s then true
  else match s with
       | EmptyString => false
       | String _ s' => contains sub s'
       end.

(** [c in s] for a single character *)
Fixpoint mem (c : ascii) (s : string) : bool :=
  match s with
  | EmptyString => false
  | String d s' => if Ascii.eqb c d then true else mem c s'
  end.

Definition is_upper (c : ascii) : bool :=
  (65 <=? nat_of_ascii c)%nat && (nat_of_ascii c <=? 90)%nat.

Definition lower_char (c : ascii) : ascii :=
  if is_upper c then ascii_of_nat (nat_of_ascii c + 32) else c.

(** [s.lower()] *)
Fixpoint lower (s : string) : string :=
  match s with
  | EmptyString => EmptyString
  | String c s' => String (lower_char c) (lower s')
  end.

(** [s[n:]] *)
Fixpoint drop (n : nat) (s : string) : string :=
  match n, s with
  | O, _ => s
  | S _, EmptyString => EmptyString
  | S n', String _ s' => drop n' s'
  end.

(** [s[:n]] *)
Fixpoint take (n : nat) (s : string) : string :=
  match n, s with
  | O, _ => EmptyString
  | S _, EmptyString => EmptyString
  | S n', String c s' => String c (take n' s')
  end.

(** [s.split(sep)] for a non-empty [sep]: a scan from the left; [skip]
    counts the characters of a separator just matched that are still to be
    passed over, [piece] is the piece being collected. *)
Fixpoint split_go (sep : string) (skip : nat) (piece s : string) : list string :=
  match s with
  | EmptyString => [piece]
  | String c s' =>
      match skip with
      | S k => split_go sep k piece s'
      | O =>
          if String.prefix sep s
          then piece :: split_go sep (String.length sep - 1) EmptyString s'
          else split_go sep 0 (piece +:+ String c EmptyString) s'
      end
  end.

Definition split (s sep : string) : list string := split_go sep 0 EmptyString s.

(** [l[0]] and [l[-1]] of a list produced by [split] (never empty). *)
Definition first (l : list string) : string := hd EmptyString l.
Definition last (l : list string) : string := List.last l EmptyString.

(** [s.split(sep, 1)]: the text before the first [sep] and, when [sep]
    occurs, the text after it. *)
Fixpoint split1_go (sep : string) (piece s : string) : string * option string :=
  match s with
  | EmptyString => (piece, None)
  | String c s' =>
      if String.prefix sep s
      then (piece, Some (drop (String.length sep) s))
      else split1_go sep (piece +:+ String c EmptyString) s'
  end.

Definition split1 (s sep : string) : string * option string :=
  split1_go sep EmptyString s.

(** [s.lstrip(chars)], [s.rstrip(chars)], [s.strip(chars)] *)
Fixpoint lstrip (s chars : string) : string :=
  match s with
  | EmptyString => EmptyString
  | String c s' => if mem c chars then lstrip s' chars else s
  end.

Fixpoint rstrip (s chars : string) : string :=
  match s with
  | EmptyString => EmptyString
  | String c s' =>
      match rstrip s' chars with
      | EmptyString => if mem c chars then EmptyString else String c EmptyString
      | r => String c r
      end
  end.

Definition strip (s chars : string) : string := rstrip (lstrip s chars) chars.

(** The ASCII characters that [str.isspace()] accepts. *)
Definition whitespace : string :=
  String "009" (String "010" (String "011" (String "012" (String "013"
  (String "028" (String "029" (String "030" (String "031" " ")))))))).

Definition utf8 (bytes : list nat) : string :=
  foldr (fun n s => String (ascii_of_nat n) s) EmptyString bytes.

(** The other characters that [str.isspace()] accepts, in UTF-8: U+0085,
    U+00A0, U+1680, U+2000 to U+200A, U+2028, U+2029, U+202F, U+205F and
    U+3000. *)
Definition unicode_spaces : list string :=
  map utf8
    [[194; 133]; [194; 160]; [225; 154; 128];
     [226; 128; 128]; [226; 128; 129]; [226; 128; 130]; [226; 128; 131];
     [226; 128; 132]; [226; 128; 133]; [226; 128; 134]; [226; 128; 135];
     [226; 128; 136]; [226; 128; 137]; [226; 128; 138];
     [226; 128; 168]; [226; 128; 169]; [226; 128; 175]; [226; 129; 159];
     [227; 128; 128]].

(** Is [t] one character that [str.isspace()] accepts? *)
Definition is_space (t : string) : bool :=
  match t with
  | String c EmptyString => mem c whitespace
  | _ => existsb (String.eqb t) unicode_spaces
  end.

(** [s.lstrip()]: white space of one, two or three bytes is removed from
    the left. *)
Fixpoint lstrip_ws (s : string) : string :=
  match s with
  | EmptyString => EmptyString
  | String a s1 =>
      if is_space (String a EmptyString) then lstrip_ws s1
      else match s1 with
           | EmptyString => s
           | String b s2 =>
               if is_space (String a (String b EmptyString)) then lstrip_ws s2
               else match s2 with
                    | EmptyString => s
                    | String c s3 =>
                        if is_space (String a (String b (String c EmptyString)))
                        then lstrip_ws s3 else s
                    end
           end
  end.

(** [s.rstrip()]: the tail is stripped first; what is left of it, with the
    character before it, is white space when it is one such character. *)
Fixpoint rstrip_ws (s : string) : string :=
  match s with
  | EmptyString => EmptyString
  | String c s' =>
      let t := String c (rstrip_ws s') in
      if is_space t then EmptyString else t
  end.

(** [s.strip()] *)
Definition strip_ws (s : string) : string := rstrip_ws (lstrip_ws s).

(** [s.replace(c, empty)] for a single character [c] *)
Fixpoint remove_char (c : ascii) (s : string) : string :=
  match s with
  | EmptyString => EmptyString
  | String d s' => if Ascii.eqb c d then remove_char c s' else String d (remove_char c s')
  end.

(** [s.isascii()] *)
Fixpoint isascii (s : string) : bool :=
  match s with
  | EmptyString => true
  | String c s' => (nat_of_ascii c <? 128)%nat && isascii s'
  end.

(** [c * n] *)
Fixpoint repeat (c : ascii) (n : nat) : string :=
  match n with
  | O => EmptyString
  | S n' => String c (repeat c n')
  end.

(** [str(n)], also what an f-string writes for an [int] *)
Definition of_nat (n : nat) : string := pretty n.

(** Two decimal digits, as [%m], [%d], [%H], [%M] and [%S] print. *)
Definition two_digits (n : nat) : string :=
  if (n <? 10)%nat then "0" +:+ of_nat n else of_nat n.

End PyStr.


(** ** Exceptions, outcomes and the environment *)

(** The exceptions the program can meet, by class.  Of [requests]:
    [HTTPError], [ConnectionError], [Timeout], [ConnectTimeout], which is
    both a [ConnectionError] and a [Timeout], and [RequestException] for
    the rest of that family.  Each constructor but [ConnectTimeout] stands
    for the instances of its class that are in none of the classes listed
    before it.  [KeyboardInterrupt] derives from [BaseException] only. *)
Inductive exn : Type :=
  | ValueError (msg : string)
  | HTTPError (msg : string)
  | ConnectionError (msg : string)
  | ConnectTimeout (msg : string)
  | Timeout (msg : string)
  | RequestException (msg : string)
  | PermissionError (msg : string)
  | OSError (msg : string)
  | EOFError
  | OtherException (msg : string)
  | KeyboardInterrupt.

(** [isinstance(e, Exception)] *)
Definition is_Exception (e : exn) : bool :=
  match e with KeyboardInterrupt => false | _ => true end.

(** [isinstance(e, requests.exceptions.HTTPError)] and the like *)
Definition is_HTTPError (e : exn) : bool :=
  match e with HTTPError _ => true | _ => false end.

Definition is_ConnectionError (e : exn) : bool :=
  match e with ConnectionError _ | ConnectTimeout _ => true | _ => false end.

Definition is_Timeout (e : exn) : bool :=
  match e with Timeout _ | ConnectTimeout _ => true | _ => false end.

Definition is_RequestException (e : exn) : bool :=
  match e with
  | HTTPError _ | ConnectionError _ | ConnectTimeout _ | Timeout _
  | RequestException _ => true
  | _ => false
  end.

Definition is_PermissionError (e : exn) : bool :=
  match e with PermissionError _ => true | _ => false end.

(** [str(e)] *)
Definition exn_str (e : exn) : string :=
  match e with
  | ValueError m | HTTPError m | ConnectionError m | ConnectTimeout m | Timeout m
  | RequestException m | PermissionError m | OSError m | OtherException m => m
  | EOFError | KeyboardInterrupt => EmptyString
  end.

(** What running a piece of Python yields: a value, an exception, or no
    answer at all (a loop that never ends). *)
Inductive outcome (A : Type) : Type :=
  | Return (a : A)
  | Raise (e : exn)
  | Diverge.
Arguments Return {A} a.
Arguments Raise {A} e.
Arguments Diverge {A}.

Definition is_Return {A} (o : outcome A) : bool :=
  match o with Return _ => true | _ => false end.

(** [datetime.now()] *)
Record datetime : Type := {
  year : nat; month : nat; day : nat;
  hour : nat; minute : nat; second : nat
}.

(** A [requests] response opened with [stream=True]. *)
Record Response : Type := {
  status_code : nat;
  reason : string;
  resp_url : string;
  headers : gmap string string;      (* keyed by lower-case header name *)
  chunks : list string;              (* what [iter_content(8192)] yields *)
  stream_error : option exn          (* raised by the iterator after them *)
}.

(** What the program cannot see into: tables and platform code of the
    Python runtime, the clock, the terminal, the operating system and the
    network. *)
Record Env : Type := {
  (* [mimetypes.guess_extension] *)
  guess_extension : string -> option string;
  (* [bytes.decode('utf-8', 'replace')], on UTF-8 encoded text *)
  decode_utf8 : string -> string;
  (* [_check_bracketed_netloc], where the Python version has it *)
  bracketed_netloc_ok : string -> bool;
  (* the NFKC test of [_checknetloc] on a netloc that is not ASCII *)
  nfkc_netloc_ok : string -> bool;
  now : datetime;
  (* [os.path.abspath], which depends on the working directory *)
  abspath : string -> string;
  (* what [input()] returns or raises *)
  stdin : outcome string;
  (* the error of creating a directory that is not there yet, if any *)
  mkdir_error : string -> option exn;
  (* the error of [open(path, 'wb')], if any *)
  open_error : string -> option exn;
  (* the error of writing the n-th chunk to the file at a path, if any *)
  write_error : string -> nat -> option exn;
  (* when that write fails: how many bytes of what was written to the file,
     the failing chunk included, are in the file afterwards *)
  write_kept : string -> nat -> nat;
  (* [requests.get(url, stream=True, timeout=30)] *)
  http_get : string -> outcome Response
}.

(** What the program changes: the file system, the terminal output (one
    entry per [print]) and the calls of [requests.get] made so far, each
    with its URL. *)
Record World : Type := {
  dirs : gset string;
  files : gmap string string;
  stdout : list string;
  requests : list string
}.

(** ** [os.path] *)

Module OsPath.
Import PyStr.

(** [os.path.join(a, b)] *)
Definition join (a b : string) : string :=
  if startswith b "/" then b
  else if String.eqb a EmptyString || endswith a "/" then a +:+ b
  else a +:+ "/" +:+ b.

(** [p.rfind(c)]: the last index of [c], or -1. *)
Fixpoint rfind_go (c : ascii) (s : string) (i found : Z) : Z :=
  match s with
  | EmptyString => found
  | String d s' => rfind_go c s' (i + 1)%Z (if Ascii.eqb c d then i else found)
  end.
Definition rfind (s : string) (c : ascii) : Z := rfind_go c s 0%Z (-1)%Z.

(** The [while] loop of [_splitext]: is one of the [n] characters from
    [filenameIndex] on not a dot? *)
Fixpoint splitext_scan (p : string) (filenameIndex n : nat) : bool :=
  match n with
  | O => false
  | S n' =>
      match String.get filenameIndex p with
      | Some "."%char => splitext_scan p (S filenameIndex) n'
      | _ => true
      end
  end.

(** [os.path.splitext(p)] *)
Definition splitext (p : string) : string * string :=
  let sepIndex := rfind p "/" in
  let dotIndex := rfind p "." in
  if (sepIndex <? dotIndex)%Z
     && splitext_scan p (Z.to_nat (sepIndex + 1)) (Z.to_nat (dotIndex - (sepIndex + 1)))
  then (take (Z.to_nat dotIndex) p, drop (Z.to_nat dotIndex) p)
  else (p, EmptyString).

(** [os.path.exists(p)] *)
Definition exists_ (w : World) (p : string) : bool :=
  bool_decide (p ∈ dirs w) || bool_decide (is_Some (files w !! p)).

End OsPath.

(** ** [urllib.parse] *)

Module UrlLib.
Import PyStr.

Record ParseResult : Type := {
  scheme : string; netloc : string; path : string;
  params : string; query : string; fragment : string
}.

Definition is_alpha (c : ascii) : bool :=
  let n := nat_of_ascii c in
  ((65 <=? n) && (n <=? 90) || (97 <=? n) && (n <=? 122))%nat.

Definition is_digit (c : ascii) : bool :=
  let n := nat_of_ascii c in ((48 <=? n) && (n <=? 57))%nat.

(** [c in scheme_chars] *)
Definition is_scheme_char (c : ascii) : bool :=
  is_alpha c || is_digit c || mem c "+-.".

Fixpoint all_chars (f : ascii -> bool) (s : string) : bool :=
  match s with
  | EmptyString => true
  | String c s' => f c && all_chars f s'
  end.

(** [_WHATWG_C0_CONTROL_OR_SPACE] *)
Fixpoint lstrip_c0 (s : string) : string :=
  match s with
  | String c s' => if (nat_of_ascii c <=? 32)%nat then lstrip_c0 s' else s
  | EmptyString => EmptyString
  end.

(** The text up to the first of the characters of [stops], and the rest. *)
Fixpoint span_until (stops : string) (s : string) : string * string :=
  match s with
  | EmptyString => (EmptyString, EmptyString)
  | String c s' =>
      if mem c stops then (EmptyString, s)
      else let '(a, b) := span_until stops s' in (String c a, b)
  end.

(** [_splitnetloc(url, 2)] *)
Definition splitnetloc (url : string) : string * string :=
  span_until "/?#" (drop 2 url).

Definition uses_params : list string :=
  [EmptyString; "ftp"; "hdl"; "prospero"; "http"; "imap"; "https"; "shttp";
   "rtsp"; "rtspu"; "sip"; "sips"; "mms"; "sftp"; "tel"].

(** [url.find(';', start)]: the text before the first [';'] found at index
    [start] or later, if there is one. *)
Fixpoint before_semicolon_from (start : nat) (s : string) : option string :=
  match s with
  | EmptyString => None
  | String c s' =>
      match start with
      | S k => option_map (String c) (before_semicolon_from k s')
      | O => if Ascii.eqb c ";" then Some EmptyString
             else option_map (String c) (before_semicolon_from 0 s')
      end
  end.

(** The first component of [_splitparams(url)]. *)
Definition splitparams_path (url : string) : string :=
  let start := if mem "/" url then Z.to_nat (OsPath.rfind url "/") else 0%nat in
  match before_semicolon_from start url with
  | Some p => p
  | None => url
  end.

Section WithEnv.
Variable env : Env.

(** [urlsplit(url)], with an empty default scheme. *)
Definition urlsplit (url : string) : outcome ParseResult :=
  let url := lstrip_c0 url in
  let url := remove_char "010" (remove_char "013" (remove_char "009" url)) in
  let '(scheme, url) :=
    match split1 url ":" with
    | (String c0 rest as before, Some after) =>
        if (nat_of_ascii c0 <? 128)%nat && is_alpha c0
           && all_chars is_scheme_char before
        then (lower before, after) else (EmptyString, url)
    | _ => (EmptyString, url)
    end in
  let check_brackets (netloc : string) (k : outcome ParseResult) :=
    let open := mem "[" netloc in
    let close := mem "]" netloc in
    if open && negb close || close && negb open
    then Raise (ValueError "Invalid IPv6 URL")
    else if open && close && negb (bracketed_netloc_ok env netloc)
    then Raise (ValueError "Invalid IPv6 URL")
    else k in
  let '(netloc, url, has_netloc) :=
    if String.eqb (take 2 url) "//"
    then let '(n, u) := splitnetloc url in (n, u, true)
    else (EmptyString, url, false) in
  let rest :=
    let '(url, fragment) :=
      match split1 url "#" with
      | (u, Some f) => (u, f)
      | (u, None) => (u, EmptyString)
      end in
    let '(url, query) :=
      match split1 url "?" with
      | (u, Some q) => (u, q)
      | (u, None) => (u, EmptyString)
      end in
    if negb (String.eqb netloc EmptyString) && negb (isascii netloc)
       && negb (nfkc_netloc_ok env netloc)
    then Raise (ValueError "netloc contains invalid characters under NFKC normalization")
    else Return {| scheme := scheme; netloc := netloc; path := url;
                   params := EmptyString; query := query; fragment := fragment |} in
  if has_netloc then check_brackets netloc rest else rest.

(** [urlparse(url)] *)
Definition urlparse (url : string) : outcome ParseResult :=
  match urlsplit url with
  | Return r =>
      if bool_decide (scheme r ∈ uses_params) && mem ";" (path r)
      then Return {| scheme := scheme r; netloc := netloc r;
                     path := splitparams_path (path r);
                     params := drop (S (String.length (splitparams_path (path r)))) (path r);
                     query := query r; fragment := fragment r |}
      else Return r
  | Raise e => Raise e
  | Diverge => Diverge
  end.

Definition hex_value (c : ascii) : option nat :=
  let n := nat_of_ascii c in
  if is_digit c then Some (n - 48)
  else if ((65 <=? n) && (n <=? 70))%nat then Some (n - 55)
  else if ((97 <=? n) && (n <=? 102))%nat then Some (n - 87)
  else None.

(** One item of [bits[1:]] in [unquote_to_bytes]. *)
Definition unquote_item (item : string) : string :=
  match item with
  | String a (String b rest) =>
      match hex_value a, hex_value b with
      | Some x, Some y => String (ascii_of_nat (16 * x + y)) rest
      | _, _ => "%" +:+ item
      end
  | _ => "%" +:+ item
  end.

(** [unquote_to_bytes(s)] *)
Definition unquote_to_bytes (s : string) : string :=
  match split s "%" with
  | [] => EmptyString
  | b :: bits => b +:+ String.concat EmptyString (map unquote_item bits)
  end.

(** The loop of [unquote] over the runs of ASCII characters: [run] is
    the ASCII run being collected. *)
Definition unquote_flush (run : string) : string :=
  match run with
  | EmptyString => EmptyString
  | _ => decode_utf8 env (unquote_to_bytes run)
  end.

Fixpoint unquote_go (run s : string) : string :=
  match s with
  | EmptyString => unquote_flush run
  | String c s' =>
      if (nat_of_ascii c <? 128)%nat
      then unquote_go (run +:+ String c EmptyString) s'
      else unquote_flush run +:+ String c (unquote_go EmptyString s')
  end.

(** [unquote(s)] *)
Definition unquote (s : string) : string :=
  if negb (mem "%" s) then s else unquote_go EmptyString s.

End WithEnv.
End UrlLib.

(** ** Running Python against a world *)

(** A computation reads and changes the world and ends in an outcome; what
    it changed before raising stays changed. *)
Definition M (A : Type) : Type := World -> outcome A * World.

#[global] Instance outcome_ret : MRet outcome := fun _ a => Return a.
#[global] Instance outcome_bind : MBind outcome := fun _ _ k o =>
  match o with
  | Return a => k a
  | Raise e => Raise e
  | Diverge => Diverge
  end.

#[global] Instance M_ret : MRet M := fun _ a w => (Return a, w).
#[global] Instance M_bind : MBind M := fun _ _ k m w =>
  match m w with
  | (Return a, w') => k a w'
  | (Raise e, w') => (Raise e, w')
  | (Diverge, w') => (Diverge, w')
  end.

(** A pure computation that may raise. *)
Definition lift {A} (o : outcome A) : M A := fun w => (o, w).

(** [try: body  except ...: handler]; [handlers e] is the first clause that
    matches [e], if any. *)
Definition try_except {A} (body : M A) (handlers : exn -> option (M A)) : M A :=
  fun w =>
    match body w with
    | (Raise e, w') =>
        match handlers e with
        | Some h => h w'
        | None => (Raise e, w')
        end
    | r => r
    end.

Definition set_stdout (out : list string) (w : World) : World :=
  {| dirs := dirs w; files := files w; stdout := out; requests := requests w |}.
Definition set_dirs (d : gset string) (w : World) : World :=
  {| dirs := d; files := files w; stdout := stdout w; requests := requests w |}.
Definition set_files (f : gmap string string) (w : World) : World :=
  {| dirs := dirs w; files := f; stdout := stdout w; requests := requests w |}.
Definition set_requests (r : list string) (w : World) : World :=
  {| dirs := dirs w; files := files w; stdout := stdout w; requests := r |}.

(** [print(line)] *)
Definition print (line : string) : M unit :=
  fun w => (Return tt, set_stdout (stdout w ++ [line]) w).

Definition nl : string := String "010" EmptyString.
Definition dquote : string := String "034" EmptyString.

(** [d.strftime("%Y%m%d_%H%M%S")], for a year of four digits. *)
Definition strftime (d : datetime) : string :=
  PyStr.of_nat (year d) +:+ PyStr.two_digits (month d) +:+ PyStr.two_digits (day d)
  +:+ "_" +:+ PyStr.two_digits (hour d) +:+ PyStr.two_digits (minute d)
  +:+ PyStr.two_digits (second d).

(** [response.headers.get(name, '')], [name] in lower case *)
Definition headers_get (r : Response) (name : string) : string :=
  default EmptyString (headers r !! name).

(** ** The program *)

Section Program.
Import PyStr.
Variable env : Env.

(** [os.makedirs(name, exist_ok=True)]: a directory that is there is not an
    error; a file of that name is; otherwise the operating system decides. *)
Definition makedirs (name : string) : M unit :=
  fun w =>
    if bool_decide (name ∈ dirs w) then (Return tt, w)
    else if bool_decide (is_Some (files w !! name))
    then (Raise (OSError ("[Errno 17] File exists: '" +:+ name +:+ "'")), w)
    else match mkdir_error env name with
         | Some e => (Raise e, w)
         | None => (Return tt, set_dirs ({[name]} ∪ dirs w) w)
         end.

Definition create_directory_handlers (e : exn) : option (M (option string)) :=
  match e with
  | PermissionError _ =>
      Some (print "✗ Permission denied: Cannot create directory" ;; mret None)
  | KeyboardInterrupt => None
  | _ => Some (print ("✗ Error creating directory: " +:+ exn_str e) ;; mret None)
  end.

Definition create_directory (directory_name : string) : M (option string) :=
  try_except
    (makedirs directory_name ;;
     print ("✓ Directory '" +:+ directory_name +:+ "' is ready") ;;
     mret (Some directory_name))
    create_directory_handlers.

Definition extract_filename_from_url (url : string) : outcome string :=
  parsed_url ← UrlLib.urlparse env url;
  let path := UrlLib.unquote env (UrlLib.path parsed_url) in
  let generated := "image_" +:+ strftime (now env) +:+ ".jpg" in
  if negb (String.eqb path EmptyString) && mem "/" path then
    let filename := last (split path "/") in
    if negb (String.eqb filename EmptyString) && mem "." filename
    then mret filename
    else mret generated
  else mret generated.

Definition image_extensions : list string :=
  [".jpg"; ".jpeg"; ".png"; ".gif"; ".bmp"; ".webp"; ".tiff"].

Definition is_valid_image_url (url : string) : outcome bool :=
  parsed_url ← UrlLib.urlparse env url;
  let path := lower (UrlLib.path parsed_url) in
  mret (existsb (endswith path) image_extensions).

(** Lines 71 to 77 of [download_image]: the name from the
    content-disposition header, or else from the URL. *)
Definition get_filename (url content_disposition : string) : outcome string :=
  if contains "filename=" content_disposition
  then mret (strip (last (split content_disposition "filename=")) (dquote +:+ "'"))
  else extract_filename_from_url url.

(** Lines 80 to 86: the extension is completed when it is not an image
    extension. *)
Definition ensure_extension (filename content_type : string) : string :=
  if negb (existsb (endswith (lower filename)) image_extensions) then
    match guess_extension env (first (split content_type ";")) with
    | Some (String _ _ as ext) => filename +:+ ext
    | _ => filename +:+ ".jpg"
    end
  else filename.

(** Lines 71 to 86 together. *)
Definition resolve_filename (url content_disposition content_type : string)
  : outcome string :=
  filename ← get_filename url content_disposition;
  mret (ensure_extension filename content_type).

(** Line 94: [f"{base_name}_{counter}{extension}"] *)
Definition numbered_name (base_name extension : string) (counter : nat) : string :=
  base_name +:+ "_" +:+ of_nat counter +:+ extension.

(** Lines 93 to 96: the [while] loop, run for at most [fuel] tests of
    [os.path.exists]; [None] when they are used up. *)
Fixpoint collision_loop (fuel : nat) (taken : string -> bool)
    (directory base_name extension : string)
    (counter : nat) (filename filepath : string) : option (string * string) :=
  match fuel with
  | O => None
  | S fuel' =>
      if taken filepath then
        let filename := numbered_name base_name extension counter in
        let filepath := OsPath.join directory filename in
        collision_loop fuel' taken directory base_name extension (S counter) filename filepath
      else Some (filename, filepath)
  end.

(** Lines 88 to 96.  The loop is given two tests more than there are entries
    in the file system, which [avoid_collision_total] shows to be enough. *)
Definition avoid_collision (directory filename : string) : M (string * string) :=
  fun w =>
    let filepath := OsPath.join directory filename in
    let '(base_name, extension) := OsPath.splitext filename in
    match collision_loop (size (dirs w) + size (files w) + 2) (OsPath.exists_ w)
            directory base_name extension 1 filename filepath with
    | Some r => (Return r, w)
    | None => (Diverge, w)
    end.

(** [requests.get(url, stream=True, timeout=30)] *)
Definition requests_get (url : string) : M Response :=
  fun w => (http_get env url, set_requests (requests w ++ [url]) w).

(** [response.raise_for_status()] *)
Definition raise_for_status (r : Response) : M unit :=
  let code := status_code r in
  if (400 <=? code)%nat && (code <? 500)%nat
  then lift (Raise (HTTPError (of_nat code +:+ " Client Error: " +:+ reason r
                               +:+ " for url: " +:+ resp_url r)))
  else if (500 <=? code)%nat && (code <? 600)%nat
  then lift (Raise (HTTPError (of_nat code +:+ " Server Error: " +:+ reason r
                               +:+ " for url: " +:+ resp_url r)))
  else mret tt.

(** [open(filepath, 'wb')]: the file is created, or emptied. *)
Definition open_wb (filepath : string) : M unit :=
  fun w =>
    match open_error env filepath with
    | Some e => (Raise e, w)
    | None => (Return tt, set_files (<[filepath := EmptyString]> (files w)) w)
    end.

(** [file.write(chunk)] for the [n]-th chunk of the stream.  A write that
    fails may have put part of the data in the file: what is there
    afterwards is a prefix of what was written, this chunk included. *)
Definition write (filepath : string) (n : nat) (chunk : string) : M unit :=
  fun w =>
    let data := default EmptyString (files w !! filepath) +:+ chunk in
    match write_error env filepath n with
    | Some e =>
        (Raise e,
         set_files (<[filepath := PyStr.take (write_kept env filepath n) data]> (files w)) w)
    | None => (Return tt, set_files (<[filepath := data]> (files w)) w)
    end.

(** Lines 101 to 103: the [for] loop over the chunks, the [n]-th first.
    What the file holds is what was written to it: closing the file at the
    end of the [with] statement is taken to succeed. *)
Fixpoint write_chunks (filepath : string) (n : nat) (cs : list string) : M unit :=
  match cs with
  | [] => mret tt
  | chunk :: cs' =>
      (if negb (String.eqb chunk EmptyString) then write filepath n chunk else mret tt) ;;
      write_chunks filepath (S n) cs'
  end.

(** [os.path.getsize(filepath)] *)
Definition getsize (filepath : string) : M nat :=
  fun w =>
    match files w !! filepath with
    | Some content => (Return (String.length content), w)
    | None => (Raise (OSError ("[Errno 2] No such file or directory: '" +:+ filepath +:+ "'")), w)
    end.

(** Lines 60 to 108: the body of the [try] statement. *)
Definition download_body (url directory : string) : M bool :=
  print ("🔗 Connecting to: " +:+ url) ;;
  response ← requests_get url;
  raise_for_status response ;;
  let content_type := headers_get response "content-type" in
  (if negb (startswith content_type "image/")
   then print "⚠ Warning: Server response doesn't appear to be an image" ;;
        print ("Content-Type: " +:+ content_type)
   else mret tt) ;;
  let content_disposition := headers_get response "content-disposition" in
  filename ← lift (resolve_filename url content_disposition content_type);
  '(filename, filepath) ← avoid_collision directory filename;
  print ("📥 Downloading: " +:+ filename) ;;
  open_wb filepath ;;
  write_chunks filepath 0 (chunks response) ;;
  match stream_error response with Some e => lift (Raise e) | None => mret tt end ;;
  file_size ← getsize filepath;
  print ("✅ Successfully saved: " +:+ filename +:+ " (" +:+ of_nat file_size +:+ " bytes)") ;;
  print ("📁 Location: " +:+ abspath env filepath) ;;
  mret true.

(** Lines 110 to 123: the first clause whose class the exception is an
    instance of; each clause prints and falls through to [return False]. *)
Definition download_handlers (e : exn) : option (M bool) :=
  if is_HTTPError e then
    Some (print ("✗ HTTP Error: " +:+ exn_str e) ;; mret false)
  else if is_ConnectionError e then
    Some (print "✗ Connection Error: Unable to connect to the server" ;; mret false)
  else if is_Timeout e then
    Some (print "✗ Timeout Error: Request took too long" ;; mret false)
  else if is_RequestException e then
    Some (print ("✗ Request Error: " +:+ exn_str e) ;; mret false)
  else if is_PermissionError e then
    Some (print "✗ Permission denied: Cannot write to file" ;; mret false)
  else if is_Exception e then
    Some (print ("✗ Unexpected error: " +:+ exn_str e) ;; mret false)
  else None.

Definition download_image (url directory : string) : M bool :=
  if negb (startswith_any url ["http://"; "https://"]) then
    print "✗ Invalid URL: Must start with http:// or https://" ;;
    mret false
  else
    valid ← lift (is_valid_image_url url);
    (if negb valid
     then print "⚠ Warning: URL doesn't appear to point to an image file" ;;
          print "Proceeding anyway..."
     else mret tt) ;;
    try_except (download_body url directory) download_handlers.

(** [input(prompt)]: the prompt is written, a line is read. *)
Definition input (prompt : string) : M string :=
  fun w => (stdin env, set_stdout (stdout w ++ [prompt]) w).

Definition banner : M unit :=
  print (repeat "=" 50) ;;
  print "🖼️  Image Fetcher - Ubuntu Principles Edition" ;;
  print (repeat "=" 50) ;;
  print "Community: Connecting to the wider web" ;;
  print "Respect: Graceful error handling" ;;
  print "Sharing: Organized image storage" ;;
  print "Practicality: Real-world utility" ;;
  print (repeat "=" 50).

Definition main_handlers (e : exn) : option (M unit) :=
  match e with
  | KeyboardInterrupt =>
      Some (print (nl +:+ nl +:+ "👋 Operation cancelled by user. Goodbye!"))
  | EOFError => Some (print (nl +:+ nl +:+ "👋 No input provided. Exiting."))
  | _ => None
  end.

(** Lines 143 to 155: the body of the [try] statement of [main]. *)
Definition main_body (directory : string) : M unit :=
  line ← input "🌐 Please enter the image URL: ";
  let url := strip_ws line in
  if String.eqb url EmptyString then print "✗ No URL provided. Exiting."
  else
    success ← download_image url directory;
    if success : bool then print "🎉 Download completed successfully!"
    else print "❌ Download failed. Please check the URL and try again.".

Definition main : M unit :=
  banner ;;
  directory ← create_directory "Fetched_Images";
  match directory with
  | Some (String _ _ as d) => try_except (main_body d) main_handlers
  | _ => mret tt
  end.

End Program.

(** ** A sample environment

    A small MIME table, a quiet operating system and a server with three
    resources; used to run the program on concrete inputs. *)

Definition sample_guess_extension (type : string) : option string :=
  let t := PyStr.lower type in
  if String.eqb t "image/png" then Some ".png"
  else if String.eqb t "image/jpeg" then Some ".jpg"
  else if String.eqb t "image/gif" then Some ".gif"
  else if String.eqb t "text/html" then Some ".html"
  else None.

Definition sample_now : datetime :=
  {| year := 2024; month := 3; day := 15; hour := 9; minute := 30; second := 5 |}.

Definition sample_response (url content_type : string) (body : list string) : Response :=
  {| status_code := 200; reason := "OK"; resp_url := url;
     headers := {[ "content-type" := content_type ]};
     chunks := body; stream_error := None |}.

Definition sample_http_get (url : string) : outcome Response :=
  if String.eqb url "https://example.com/path/photo.jpeg?x=1"
  then Return (sample_response url "image/jpeg" ["abc"; "de"])
  else if String.eqb url "https://example.com/download"
  then Return (sample_response url "image/png" ["png"])
  else if String.eqb url "https://example.com/missing.png"
  then Return {| status_code := 404; reason := "Not Found"; resp_url := url;
                 headers := ∅; chunks := []; stream_error := None |}
  else Raise (ConnectionError "Name or service not known").

Definition sample_env (line : outcome string) : Env :=
  {| guess_extension := sample_guess_extension;
     decode_utf8 := fun s => s;
     bracketed_netloc_ok := fun _ => true;
     nfkc_netloc_ok := fun _ => true;
     now := sample_now;
     abspath := fun p => "/home/user/" +:+ p;
     stdin := line;
     mkdir_error := fun _ => None;
     open_error := fun _ => None;
     write_error := fun _ _ => None;
     write_kept := fun _ _ => 0;
     http_get := sample_http_get |}.

Definition empty_world : World :=
  {| dirs := ∅; files := ∅; stdout := []; requests := [] |}.

(** The same machine with a working directory in which nothing can be
    created. *)
Definition readonly_env (line : outcome string) : Env :=
  {| guess_extension := sample_guess_extension;
     decode_utf8 := fun s => s;
     bracketed_netloc_ok := fun _ => true;
     nfkc_netloc_ok := fun _ => true;
     now := sample_now;
     abspath := fun p => "/home/user/" +:+ p;
     stdin := line;
     mkdir_error := fun name =>
       Some (PermissionError ("[Errno 13] Permission denied: '" +:+ name +:+ "'"));
     open_error := fun name =>
       Some (PermissionError ("[Errno 13] Permission denied: '" +:+ name +:+ "'"));
     write_error := fun _ _ => None;
     write_kept := fun _ _ => 0;
     http_get := sample_http_get |}.

(** The same machine behind a network on which no connection is made in
    time. *)
Definition slow_env (line : outcome string) : Env :=
  {| guess_extension := sample_guess_extension;
     decode_utf8 := fun s => s;
     bracketed_netloc_ok := fun _ => true;
     nfkc_netloc_ok := fun _ => true;
     now := sample_now;
     abspath := fun p => "/home/user/" +:+ p;
     stdin := line;
     mkdir_error := fun _ => None;
     open_error := fun _ => None;
     write_error := fun _ _ => None;
     write_kept := fun _ _ => 0;
     http_get := fun _ => Raise (ConnectTimeout "Connection to slow.invalid timed out") |}.

(** The header [content-disposition: attachment; filename="pic.png"] *)
Definition pic_disposition : string :=
  "attachment; filename=" +:+ dquote +:+ "pic.png" +:+ dquote.

(** A computation keeps a component [f] of the world when it leaves it as
    it found it, whatever its outcome. *)
Definition keeps {A X : Type} (f : World → X) (m : M A) : Prop :=
  ∀ w, f (m w).2 = f w.

(** A computation is safe when it ends, and raises nothing but instances
    of [Exception]. *)
Definition safe {A : Type} (m : M A) : Prop :=
  ∀ w, match (m w).1 with
       | Return _ => True
       | Raise e => is_Exception e = true
       | Diverge => False
       end.

(** An environment in which requests end and no call is interrupted: the
    operating system and the network raise instances of [Exception] only. *)
Definition uninterrupted (env : Env) : Prop :=
  (∀ url, match http_get env url with
          | Return r => ∀ e, stream_error r = Some e → is_Exception e = true
          | Raise e => is_Exception e = true
          | Diverge => False
          end)
  ∧ (∀ p e, open_error env p = Some e → is_Exception e = true)
  ∧ (∀ p n e, write_error env p n = Some e → is_Exception e = true).

(** What holds after a computation run from [w]: [Q] of the value and the
    world when it returns, [E] of the exception and the world when it
    raises, [D] of the world when it does not end. *)
Definition wp {A : Type} (m : M A) (Q : A → World → Prop)
    (E : exn → World → Prop) (D : World → Prop) (w : World) : Prop :=
  match m w with
  | (Return a, w') => Q a w'
  | (Raise e, w') => E e w'
  | (Diverge, w') => D w'
  end.




(** A server that answers every request with a small PNG image and no
    content-disposition. *)
Definition png_env (line : outcome string) : Env :=
  {| guess_extension := sample_guess_extension;
     decode_utf8 := fun s => s;
     bracketed_netloc_ok := fun _ => true;
     nfkc_netloc_ok := fun _ => true;
     now := sample_now;
     abspath := fun p => "/home/user/" +:+ p;
     stdin := line;
     mkdir_error := fun _ => None;
     open_error := fun _ => None;
     write_error := fun _ _ => None;
     write_kept := fun _ _ => 0;
     http_get := fun url => Return (sample_response url "image/png" ["png"]) |}.

(** A target directory that holds a file named [.png]. *)
Definition dotfile_world : World :=
  {| dirs := {[ "Fetched_Images" ]};
     files := {[ "Fetched_Images/.png" := "first" ]};
     stdout := []; requests := [] |}.

(** U+00A0, the no-break space, in UTF-8 *)
Definition nbsp : string := PyStr.utf8 [194; 160].

(** A line of white space only: a space, a no-break space, U+3000 and a
    tab. *)
Definition blank_line : string :=
  " " +:+ nbsp +:+ PyStr.utf8 [227; 128; 128] +:+ String "009" EmptyString.

(** A URL typed with a no-break space before it and a space after it. *)
Definition padded_line : string :=
  nbsp +:+ "https://example.com/missing.png" +:+ " ".

(** A target directory that already holds two photos. *)
Definition crowded_world : World :=
  {| dirs := {[ "Fetched_Images" ]};
     files := {[ "Fetched_Images/photo.jpeg" := "first";
                 "Fetched_Images/photo_1.jpeg" := "second" ]};
     stdout := []; requests := [] |}.

(** * Properties *)

(** ** Strings *)

Section StringFacts.
Import PyStr.

Lemma app_cons c s t : String c s +:+ t = String c (s +:+ t).
Proof. reflexivity. Qed.

Lemma app_nil_l s : EmptyString +:+ s = s.
Proof. reflexivity. Qed.

Lemma app_nil_r s : s +:+ EmptyString = s.
Proof. induction s as [|c s IH]; [done|]. by rewrite app_cons, IH. Qed.

Lemma app_assoc' s t u : (s +:+ t) +:+ u = s +:+ t +:+ u.
Proof. induction s as [|c s IH]; [done|]. by rewrite !app_cons, IH. Qed.

Lemma prefix_nil s : String.prefix EmptyString s = true.
Proof. by destruct s. Qed.

Lemma length_app s t : String.length (s +:+ t) = String.length s + String.length t.
Proof. induction s as [|c s IH]; [done|]. rewrite app_cons. simpl. by rewrite IH. Qed.

Lemma app_inj_r s t u : s +:+ u = t +:+ u → s = t.
Proof.
  revert t. induction s as [|c s IH]; intros [|d t] H.
  - done.
  - apply (f_equal String.length) in H. rewrite app_nil_l, app_cons in H.
    simpl in H. rewrite length_app in H. lia.
  - apply (f_equal String.length) in H. rewrite app_nil_l, app_cons in H.
    simpl in H. rewrite length_app in H. lia.
  - rewrite !app_cons in H. injection H as -> H. f_equal. by apply IH.
Qed.

Lemma eqb_false_ne s t : String.eqb s t = false ↔ s ≠ t.
Proof. apply String.eqb_neq. Qed.

Lemma endswith_refl s : endswith s s = true.
Proof. destruct s; cbn [endswith]; by rewrite String.eqb_refl. Qed.

Lemma endswith_spec s suf : endswith s suf = true ↔ ∃ pre, s = pre +:+ suf.
Proof.
  induction s as [|c s IH]; cbn [endswith].
  - destruct (String.eqb_spec EmptyString suf) as [<-|Hne].
    + split; [by exists EmptyString|done].
    + split; [done|]. intros [[|d pre] Hpre]; [by rewrite app_nil_l in Hpre|].
      by rewrite app_cons in Hpre.
  - destruct (String.eqb_spec (String c s) suf) as [<-|Hne].
    + split; [by exists EmptyString|done].
    + rewrite IH. split.
      * intros [pre ->]. by exists (String c pre).
      * intros [[|d pre] Hpre]; [by rewrite app_nil_l in Hpre|].
        rewrite app_cons in Hpre. injection Hpre as -> ->. by exists pre.
Qed.

Lemma endswith_app s suf : endswith (s +:+ suf) suf = true.
Proof. apply endswith_spec. by exists s. Qed.

Lemma endswith_app_r s t suf : endswith t suf = true → endswith (s +:+ t) suf = true.
Proof.
  rewrite !endswith_spec. intros [pre ->]. exists (s +:+ pre). by rewrite app_assoc'.
Qed.

Lemma lower_app s t : lower (s +:+ t) = lower s +:+ lower t.
Proof. induction s as [|c s IH]; [done|]. rewrite app_cons. simpl. by rewrite IH. Qed.

Lemma startswith_spec s p : startswith s p = true ↔ ∃ rest, s = p +:+ rest.
Proof.
  unfold startswith. revert s. induction p as [|c p IH]; intros s.
  - destruct s; simpl; split; eauto.
  - destruct s as [|d s]; simpl.
    + split; [done|]. by intros [rest Hrest].
    + destruct (ascii_dec c d) as [->|Hne].
      * rewrite IH. split; intros [rest Hrest]; exists rest.
        -- by rewrite app_cons, Hrest.
        -- rewrite app_cons in Hrest. by injection Hrest.
      * split; [done|]. intros [rest Hrest]. rewrite app_cons in Hrest.
        injection Hrest as ??. congruence.
Qed.

Lemma take_drop n s : take n s +:+ drop n s = s.
Proof.
  revert s. induction n as [|n IH]; intros [|c s]; try done.
  simpl. by rewrite app_cons, IH.
Qed.

Lemma of_nat_inj j k : of_nat j = of_nat k → j = k.
Proof. unfold of_nat. apply (inj pretty). Qed.

End StringFacts.

(** ** The collision loop *)

Section Collision.
Import PyStr.

Lemma startswith_slash_numbered base_name extension k :
  startswith (numbered_name base_name extension k) "/" = startswith (base_name +:+ "_") "/".
Proof.
  unfold numbered_name, startswith.
  destruct base_name as [|c b]; [done|].
  rewrite !app_cons. cbn [String.prefix]. destruct (ascii_dec "/" c); [|done].
  by rewrite !prefix_nil.
Qed.

Lemma numbered_name_inj base_name extension j k :
  numbered_name base_name extension j = numbered_name base_name extension k → j = k.
Proof.
  unfold numbered_name. intros H.
  apply (inj (String.app base_name)) in H.
  apply (inj (String.app "_")) in H.
  apply app_inj_r in H. by apply of_nat_inj.
Qed.

Lemma join_numbered_inj directory base_name extension j k :
  OsPath.join directory (numbered_name base_name extension j)
  = OsPath.join directory (numbered_name base_name extension k) → j = k.
Proof.
  unfold OsPath.join. rewrite !startswith_slash_numbered.
  destruct (startswith (base_name +:+ "_") "/").
  - apply numbered_name_inj.
  - destruct (String.eqb directory EmptyString || endswith directory "/"); intros H.
    + apply (inj (String.app directory)) in H. by apply numbered_name_inj in H.
    + apply (inj (String.app directory)) in H. apply (inj (String.app "/")) in H.
      by apply numbered_name_inj in H.
Qed.

(** The file system holds no more paths than [dirs] and [files] have
    entries, so of enough paths that differ one is free. *)
Lemma free_path_exists (w : World) (f : nat → string) (a : nat) :
  Inj (=) (=) f →
  ∃ j, a ≤ j < a + (size (dirs w) + size (files w) + 1) ∧ OsPath.exists_ w (f j) = false.
Proof.
  intros Hinj. set (n := size (dirs w) + size (files w)).
  destruct (decide (Forall (λ j, OsPath.exists_ w (f j) = true) (seq a (n + 1))))
    as [Hall|Hnot].
  - exfalso.
    assert (Hsub : (list_to_set (f <$> seq a (n + 1)) : gset string)
                   ⊆ dirs w ∪ dom (files w)).
    { intros p Hp. apply elem_of_list_to_set, list_elem_of_fmap in Hp.
      destruct Hp as (j & Hp & Hin). subst p.
      rewrite Forall_forall in Hall. pose proof (Hall j Hin) as Hex.
      unfold OsPath.exists_ in Hex. apply orb_true_iff in Hex.
      destruct Hex as [Hdir|Hfile].
      - apply bool_decide_eq_true in Hdir. by apply elem_of_union_l.
      - apply bool_decide_eq_true in Hfile. apply elem_of_union_r.
        by apply elem_of_dom. }
    apply subseteq_size in Hsub.
    rewrite size_list_to_set in Hsub by (apply NoDup_fmap_2; [done|apply NoDup_seq]).
    rewrite length_fmap, length_seq in Hsub.
    pose proof (size_union_alt (dirs w) (dom (files w))) as Hu.
    assert (Hle : size (dom (files w) ∖ dirs w) ≤ size (dom (files w))).
    { apply subseteq_size. by apply subseteq_difference_l. }
    rewrite size_dom in *. unfold n in *. lia.
  - apply not_Forall_Exists in Hnot; [|intros j; apply _].
    apply Exists_exists in Hnot as (j & Hj & Hfree).
    apply elem_of_seq in Hj. exists j. split; [lia|].
    simpl in Hfree. by apply not_true_is_false.
Qed.

(** The first index from [a] on at which a test fails, when one of the next
    [n] does. *)
Lemma first_failure (P : nat → bool) (n a : nat) :
  (∃ j, a ≤ j < a + n ∧ P j = false) →
  ∃ m, m < n ∧ P (a + m) = false ∧ ∀ j, a ≤ j < a + m → P j = true.
Proof.
  revert a. induction n as [|n IH]; intros a (j & Hj & Hfree); [lia|].
  destruct (P a) eqn:Ha.
  - destruct (IH (S a)) as (m & Hm & Hfree' & Hbelow).
    { exists j. split; [|done]. destruct (decide (j = a)) as [->|]; [congruence|lia]. }
    exists (S m). split; [lia|]. split.
    + by replace (a + S m) with (S a + m) by lia.
    + intros i Hi. destruct (decide (i = a)) as [->|]; [done|]. apply Hbelow. lia.
  - exists 0. split; [lia|]. split; [by rewrite Nat.add_0_r|]. intros i Hi. lia.
Qed.

Variables (taken : string → bool) (directory base_name extension : string).

(** A path that is free ends the loop at once. *)
Lemma collision_loop_free fuel counter filename filepath :
  taken filepath = false →
  collision_loop (S fuel) taken directory base_name extension counter filename filepath
  = Some (filename, filepath).
Proof. intros H. simpl. by rewrite H. Qed.

(** From a taken path the loop tries the numbers from [counter] on and
    returns the first whose path is free. *)
Lemma collision_loop_numbered n :
  ∀ fuel counter filename filepath,
    taken filepath = true →
    (∀ j, counter ≤ j < counter + n → taken (OsPath.join directory (numbered_name base_name extension j)) = true) →
    taken (OsPath.join directory (numbered_name base_name extension (counter + n))) = false →
    n + 2 ≤ fuel →
    collision_loop fuel taken directory base_name extension counter filename filepath
    = Some (numbered_name base_name extension (counter + n),
            OsPath.join directory (numbered_name base_name extension (counter + n))).
Proof.
  induction n as [|n IH]; intros fuel counter filename filepath Htaken Hbelow Hfree Hfuel.
  - destruct fuel as [|[|fuel]]; [lia..|].
    rewrite Nat.add_0_r in *. cbn [collision_loop]. by rewrite Htaken, Hfree.
  - destruct fuel as [|fuel]; [lia|]. cbn [collision_loop]. rewrite Htaken.
    replace (counter + S n) with (S counter + n) in * by lia.
    apply IH; [apply Hbelow; lia| |done|lia].
    intros j Hj. apply Hbelow. lia.
Qed.

End Collision.

Lemma splitext_app p : (OsPath.splitext p).1 +:+ (OsPath.splitext p).2 = p.
Proof.
  unfold OsPath.splitext.
  destruct (_ && _); simpl; [apply take_drop|apply app_nil_r].
Qed.

(** What [avoid_collision] returns: the name itself when its path is free,
    and otherwise the numbered name with the least number from 1 on whose
    path is free.  The world is left as it was. *)
Lemma avoid_collision_spec (directory filename : string) (w : World) :
  let base_name := (OsPath.splitext filename).1 in
  let extension := (OsPath.splitext filename).2 in
  let path k := OsPath.join directory (numbered_name base_name extension k) in
  (OsPath.exists_ w (OsPath.join directory filename) = false ∧
   avoid_collision directory filename w
   = (Return (filename, OsPath.join directory filename), w))
  ∨ (OsPath.exists_ w (OsPath.join directory filename) = true ∧
     ∃ k, 1 ≤ k ∧
       avoid_collision directory filename w
       = (Return (numbered_name base_name extension k, path k), w) ∧
       OsPath.exists_ w (path k) = false ∧
       ∀ j, 1 ≤ j < k → OsPath.exists_ w (path j) = true).
Proof.
  intros base_name extension path. unfold avoid_collision.
  destruct (OsPath.splitext filename) as [b e] eqn:Hsplit.
  subst base_name extension. cbn [fst snd] in path.
  destruct (OsPath.exists_ w (OsPath.join directory filename)) eqn:Htaken.
  - right. split; [done|].
    destruct (first_failure (λ j, OsPath.exists_ w (path j))
                (size (dirs w) + size (files w) + 1) 1) as (m & Hm & Hfree & Hbelow).
    { apply (free_path_exists w path 1). intros j k. apply join_numbered_inj. }
    exists (1 + m). split; [lia|].
    rewrite (collision_loop_numbered (OsPath.exists_ w) directory b e m); [done..|lia].
  - left. split; [done|].
    replace (size (dirs w) + size (files w) + 2)
      with (S (size (dirs w) + size (files w) + 1)) by lia.
    by rewrite collision_loop_free.
Qed.

(** The loop always ends: [avoid_collision] returns a name, together with
    its path, at which nothing exists. *)
Lemma avoid_collision_total (directory filename : string) (w : World) :
  ∃ name, avoid_collision directory filename w
          = (Return (name, OsPath.join directory name), w)
          ∧ OsPath.exists_ w (OsPath.join directory name) = false.
Proof.
  destruct (avoid_collision_spec directory filename w)
    as [[Hfree ->]|[_ (k & _ & -> & Hfree & _)]]; eauto.
Qed.

(** C3.  Collision avoidance.  In every world in which the path of
    [photo.jpeg] in the target directory exists, the loop returns
    [photo_k.jpeg] for the least [k >= 1] whose path does not exist: the
    numbers are tried in increasing order from 1, all paths before the one
    returned exist, the one returned does not, and the loop ends.  In
    particular the name is [photo_1.jpeg] when that is free, and
    [photo_2.jpeg] when [photo_1.jpeg] exists too and [photo_2.jpeg] is
    free. *)
Theorem collision_avoidance_photo_jpeg (directory : string) (w : World) :
  OsPath.exists_ w (OsPath.join directory "photo.jpeg") = true →
  let name k := "photo_" +:+ PyStr.of_nat k +:+ ".jpeg" in
  let path k := OsPath.join directory (name k) in
  (∃ k, 1 ≤ k
        ∧ avoid_collision directory "photo.jpeg" w = (Return (name k, path k), w)
        ∧ OsPath.exists_ w (path k) = false
        ∧ ∀ j, 1 ≤ j < k → OsPath.exists_ w (path j) = true)
  ∧ (OsPath.exists_ w (OsPath.join directory "photo_1.jpeg") = false →
     avoid_collision directory "photo.jpeg" w
     = (Return ("photo_1.jpeg", OsPath.join directory "photo_1.jpeg"), w))
  ∧ (OsPath.exists_ w (OsPath.join directory "photo_1.jpeg") = true →
     OsPath.exists_ w (OsPath.join directory "photo_2.jpeg") = false →
     avoid_collision directory "photo.jpeg" w
     = (Return ("photo_2.jpeg", OsPath.join directory "photo_2.jpeg"), w)).
Proof.
  intros Htaken name path.
  assert (Hone : name 1 = "photo_1.jpeg") by (vm_compute; reflexivity).
  assert (Htwo : name 2 = "photo_2.jpeg") by (vm_compute; reflexivity).
  assert (Hleast : ∃ k, 1 ≤ k
        ∧ avoid_collision directory "photo.jpeg" w = (Return (name k, path k), w)
        ∧ OsPath.exists_ w (path k) = false
        ∧ ∀ j, 1 ≤ j < k → OsPath.exists_ w (path j) = true).
  { destruct (avoid_collision_spec directory "photo.jpeg" w) as [[Hfree _]|[_ H]].
    - congruence.
    - exact H. }
  split; [exact Hleast|].
  destruct Hleast as (k & Hk & Hrun & Hfree & Hbelow). split.
  - intros Hfree1. destruct (decide (k = 1)) as [->|Hne].
    + by rewrite Hrun; unfold path; rewrite Hone.
    + specialize (Hbelow 1). unfold path in Hbelow. rewrite Hone in Hbelow.
      rewrite Hbelow in Hfree1; [done|lia].
  - intros Htaken1 Hfree2. destruct (decide (k = 2)) as [->|Hne2].
    + by rewrite Hrun; unfold path; rewrite Htwo.
    + destruct (decide (k = 1)) as [->|Hne1].
      * unfold path in Hfree. rewrite Hone in Hfree. congruence.
      * specialize (Hbelow 2). unfold path in Hbelow. rewrite Htwo in Hbelow.
        rewrite Hbelow in Hfree2; [done|lia].
Qed.

Lemma collision_avoidance_photo_jpeg_witness :
  OsPath.exists_ crowded_world (OsPath.join "Fetched_Images" "photo.jpeg") = true
  ∧ avoid_collision "Fetched_Images" "photo.jpeg" crowded_world
    = (Return ("photo_2.jpeg", OsPath.join "Fetched_Images" "photo_2.jpeg"), crowded_world).
Proof.
  split; [vm_compute; reflexivity|].
  apply (collision_avoidance_photo_jpeg "Fetched_Images" crowded_world);
    vm_compute; reflexivity.
Defined.

(** ** The scheme gate *)

(** C1.  A URL that starts with neither [http://] nor [https://] makes
    [download_image] print the rejection and return [False]; the world is
    otherwise as before, and in particular no GET request has been issued. *)
Theorem invalid_url_rejected (env : Env) (url directory : string) (w : World) :
  PyStr.startswith url "http://" = false →
  PyStr.startswith url "https://" = false →
  download_image env url directory w
  = (Return false,
     set_stdout (stdout w ++ ["✗ Invalid URL: Must start with http:// or https://"]) w)
  ∧ requests (download_image env url directory w).2 = requests w
  ∧ files (download_image env url directory w).2 = files w.
Proof.
  intros Hhttp Hhttps.
  assert (Hrun : download_image env url directory w
    = (Return false,
       set_stdout (stdout w ++ ["✗ Invalid URL: Must start with http:// or https://"]) w)).
  { unfold download_image, PyStr.startswith_any. cbn [existsb].
    by rewrite Hhttp, Hhttps. }
  by rewrite Hrun.
Qed.

Lemma invalid_url_rejected_witness :
  requests (download_image (sample_env (Return "ftp://example.com/a.png"))
              "ftp://example.com/a.png" "Fetched_Images" empty_world).2 = [].
Proof.
  apply (invalid_url_rejected (sample_env (Return "ftp://example.com/a.png"))
           "ftp://example.com/a.png" "Fetched_Images" empty_world);
    vm_compute; reflexivity.
Defined.

(** ** File names *)

(** C4.  With the content-disposition [attachment; filename="pic.png"] the
    name is [pic.png], the quotes stripped, whatever the URL and the content
    type are. *)
Theorem disposition_filename_wins (env : Env) (url content_type : string) :
  resolve_filename env url pic_disposition content_type = Return "pic.png".
Proof. reflexivity. Qed.

(** C5.  For [https://example.com/path/photo.jpeg?x=1] and a
    content-disposition without [filename=], the name is [photo.jpeg]: the
    last segment of the path, the query left out. *)
Theorem url_filename_reused (env : Env) (content_disposition content_type : string) :
  PyStr.contains "filename=" content_disposition = false →
  resolve_filename env "https://example.com/path/photo.jpeg?x=1"
    content_disposition content_type = Return "photo.jpeg".
Proof.
  intros Hcd. unfold resolve_filename, get_filename. rewrite Hcd. reflexivity.
Qed.

Lemma url_filename_reused_witness :
  resolve_filename (sample_env (Return EmptyString)) "https://example.com/path/photo.jpeg?x=1"
    "inline" "image/jpeg" = Return "photo.jpeg".
Proof.
  apply (url_filename_reused (sample_env (Return EmptyString)) "inline" "image/jpeg").
  vm_compute. reflexivity.
Defined.

Lemma app_inj_same_length s t u v :
  String.length u = String.length v → s +:+ u = t +:+ v → u = v.
Proof.
  revert t. induction s as [|c s IH]; intros [|d t] Hlen H.
  - done.
  - apply (f_equal String.length) in H. rewrite app_nil_l, app_cons in H.
    simpl in H. rewrite length_app in H. lia.
  - apply (f_equal String.length) in H. rewrite app_nil_l, app_cons in H.
    simpl in H. rewrite length_app in H. lia.
  - rewrite !app_cons in H. injection H as _ H. by apply (IH t).
Qed.

(** A name ends in one suffix only among suffixes of one length. *)
Lemma endswith_other s suf suf' :
  String.length suf = String.length suf' → suf ≠ suf' →
  PyStr.endswith (s +:+ suf) suf' = false.
Proof.
  intros Hlen Hne. apply not_true_is_false. intros H.
  apply endswith_spec in H as [pre H].
  by apply app_inj_same_length in H.
Qed.

(** C2, as the code has it.  For [https://example.com/download] and a
    content-disposition without [filename=], the last path segment has no
    dot, so the name is the generated [image_<timestamp>.jpg].  It ends in
    [.jpg], which is an image extension, so the content type is not looked
    at, and it does not end in [.png]. *)
Theorem extensionless_url_gets_generated_jpg
    (env : Env) (content_disposition content_type : string) :
  PyStr.contains "filename=" content_disposition = false →
  resolve_filename env "https://example.com/download" content_disposition content_type
  = Return ("image_" +:+ strftime (now env) +:+ ".jpg")
  ∧ PyStr.endswith ("image_" +:+ strftime (now env) +:+ ".jpg") ".jpg" = true
  ∧ PyStr.endswith ("image_" +:+ strftime (now env) +:+ ".jpg") ".png" = false.
Proof.
  intros Hcd.
  assert (Hjpg : PyStr.endswith ("image_" +:+ strftime (now env) +:+ ".jpg") ".jpg" = true).
  { rewrite <- app_assoc'. apply endswith_app. }
  split; [|split; [done|]].
  - unfold resolve_filename, get_filename. rewrite Hcd.
    change (extract_filename_from_url env "https://example.com/download")
      with (Return ("image_" +:+ strftime (now env) +:+ ".jpg")).
    cbn [mbind outcome_bind mret outcome_ret]. f_equal.
    unfold ensure_extension.
    rewrite lower_app, lower_app.
    change (PyStr.lower ".jpg") with ".jpg".
    cbn [image_extensions existsb]. rewrite <- app_assoc', endswith_app. done.
  - rewrite <- app_assoc'. by apply endswith_other.
Qed.

Lemma extensionless_url_gets_generated_jpg_witness :
  resolve_filename (sample_env (Return EmptyString)) "https://example.com/download"
    EmptyString "image/png" = Return "image_20240315_093005.jpg".
Proof.
  apply (extensionless_url_gets_generated_jpg (sample_env (Return EmptyString))
           EmptyString "image/png").
  vm_compute. reflexivity.
Defined.

(** C2, as the specification words it, fails: with the content type
    [image/png], which the MIME table maps to [.png], the name resolved for
    [https://example.com/download] does not end in [.png]. *)
Lemma extensionless_url_not_png :
  resolve_filename (sample_env (Return EmptyString)) "https://example.com/download"
    EmptyString "image/png" = Return "image_20240315_093005.jpg"
  ∧ PyStr.endswith "image_20240315_093005.jpg" ".png" = false
  ∧ guess_extension (sample_env (Return EmptyString)) "image/png" = Some ".png".
Proof. vm_compute. done. Qed.

(** ** Case of the extension *)

Lemma has_image_extension_app (stem EXT ext : string) :
  ext ∈ image_extensions → PyStr.lower EXT = ext →
  existsb (PyStr.endswith (PyStr.lower (stem +:+ EXT))) image_extensions = true.
Proof.
  intros Hin Hlower. apply existsb_exists. exists ext.
  split; [by apply list_elem_of_In|].
  rewrite lower_app, Hlower. apply endswith_app.
Qed.

(** C10.  The extension checks ignore case.  When a name ends in any
    spelling [EXT] of an image extension (its lower-case form is in the
    set), [ensure_extension] returns the name unchanged; and when the path of
    the URL ends so, [is_valid_image_url] is true and [download_image] goes
    to the request without printing the warning of the URL check. *)
Theorem extension_check_ignores_case (env : Env) (stem EXT ext : string) :
  ext ∈ image_extensions → PyStr.lower EXT = ext →
  (∀ content_type, ensure_extension env (stem +:+ EXT) content_type = stem +:+ EXT)
  ∧ (∀ url r, UrlLib.urlparse env url = Return r → UrlLib.path r = stem +:+ EXT →
       is_valid_image_url env url = Return true
       ∧ ∀ directory w,
           PyStr.startswith_any url ["http://"; "https://"] = true →
           download_image env url directory w
           = try_except (download_body env url directory) download_handlers w).
Proof.
  intros Hin Hlower. split.
  - intros content_type. unfold ensure_extension.
    by rewrite (has_image_extension_app stem EXT ext).
  - intros url r Hparse Hpath.
    assert (Hvalid : is_valid_image_url env url = Return true).
    { unfold is_valid_image_url. rewrite Hparse.
      cbn [mbind outcome_bind mret outcome_ret]. rewrite Hpath.
      by rewrite (has_image_extension_app stem EXT ext). }
    split; [done|]. intros directory w Hscheme.
    unfold download_image. rewrite Hscheme, Hvalid. reflexivity.
Qed.

Lemma extension_check_ignores_case_witness :
  ensure_extension (sample_env (Return EmptyString)) "PHOTO.JPG" "image/png" = "PHOTO.JPG"
  ∧ is_valid_image_url (sample_env (Return EmptyString)) "https://example.com/a/PHOTO.JPG"
    = Return true.
Proof.
  split.
  - apply (extension_check_ignores_case (sample_env (Return EmptyString))
             "PHOTO" ".JPG" ".jpg").
    + apply (bool_decide_unpack _). vm_compute. exact I.
    + vm_compute. reflexivity.
  - refine (proj1 (proj2 (extension_check_ignores_case (sample_env (Return EmptyString))
               "/a/PHOTO" ".JPG" ".jpg" _ _) "https://example.com/a/PHOTO.JPG"
               {| UrlLib.scheme := "https"; UrlLib.netloc := "example.com";
                  UrlLib.path := "/a/PHOTO.JPG"; UrlLib.params := EmptyString;
                  UrlLib.query := EmptyString; UrlLib.fragment := EmptyString |} _ _)).
    + apply (bool_decide_unpack _). vm_compute. exact I.
    + vm_compute. reflexivity.
    + vm_compute. reflexivity.
    + vm_compute. reflexivity.
Defined.

(** ** Totality of the name resolution *)

(** Once [urlparse] accepts the URL, a name comes out of it. *)
Lemma extract_filename_from_url_total (env : Env) (url : string) :
  is_Return (UrlLib.urlparse env url) = true →
  ∃ filename, extract_filename_from_url env url = Return filename.
Proof.
  unfold extract_filename_from_url. destruct (UrlLib.urlparse env url) as [r| |]; [|done..].
  intros _. cbn [mbind outcome_bind mret outcome_ret].
  destruct (_ && _); [destruct (_ && _)|]; eauto.
Qed.

(** Lines 71 to 86, where they return.  When the content-disposition
    carries [filename=], or [urlparse] accepts the URL, the resolution
    returns a name for every content type, and the name at line 86 is: the
    name found, when it ends (in lower case) in an image extension; or else
    the name found with the extension guessed from the content type
    appended; or else, when nothing is guessed, the name found with [.jpg]
    appended. *)
Lemma resolved_name_has_extension
    (env : Env) (url content_disposition content_type : string) :
  PyStr.contains "filename=" content_disposition = true
  ∨ is_Return (UrlLib.urlparse env url) = true →
  let has_image_extension name :=
    existsb (PyStr.endswith (PyStr.lower name)) image_extensions in
  let guessed := guess_extension env (PyStr.first (PyStr.split content_type ";")) in
  ∃ found filename,
    get_filename env url content_disposition = Return found
    ∧ resolve_filename env url content_disposition content_type = Return filename
    ∧ ((has_image_extension found = true ∧ filename = found)
       ∨ (has_image_extension found = false
          ∧ ∃ ext, guessed = Some ext ∧ ext ≠ EmptyString ∧ filename = found +:+ ext)
       ∨ (has_image_extension found = false
          ∧ (guessed = None ∨ guessed = Some EmptyString)
          ∧ filename = found +:+ ".jpg"
          ∧ has_image_extension filename = true)).
Proof.
  intros Hok has_image_extension guessed.
  assert (Hfound : ∃ found, get_filename env url content_disposition = Return found).
  { unfold get_filename. destruct (PyStr.contains "filename=" content_disposition).
    - eauto.
    - destruct Hok as [|Hparse]; [done|]. by apply extract_filename_from_url_total. }
  destruct Hfound as [found Hfound]. exists found, (ensure_extension env found content_type).
  split; [done|]. split.
  { unfold resolve_filename. by rewrite Hfound. }
  unfold ensure_extension. fold (has_image_extension found). fold guessed.
  destruct (has_image_extension found) eqn:Hext; [by left|right]. cbn [negb].
  destruct guessed as [[|c ext]|] eqn:Hguess.
  - right. repeat split; [by right|].
    apply (has_image_extension_app found ".jpg" ".jpg"); [|done].
    apply (bool_decide_unpack _). vm_compute. exact I.
  - left. split; [done|]. by exists (String c ext).
  - right. repeat split; [by left|].
    apply (has_image_extension_app found ".jpg" ".jpg"); [|done].
    apply (bool_decide_unpack _). vm_compute. exact I.
Qed.

Lemma resolved_name_has_extension_witness :
  ∃ found filename,
    get_filename (sample_env (Return EmptyString)) "https://example.com/notes.txt"
      EmptyString = Return found
    ∧ resolve_filename (sample_env (Return EmptyString)) "https://example.com/notes.txt"
        EmptyString "text/html; charset=utf-8" = Return filename
    ∧ filename = "notes.txt.html".
Proof.
  destruct (resolved_name_has_extension (sample_env (Return EmptyString))
              "https://example.com/notes.txt" EmptyString "text/html; charset=utf-8")
    as (found & filename & Hfound & Hname & _).
  - right. vm_compute. reflexivity.
  - exists found, filename. split; [exact Hfound|]. split; [exact Hname|].
    vm_compute in Hname. congruence.
Defined.

(** C6.  The resolution of the name is not total, and the final name can
    lack every extension the claim lists.  [extract_filename_from_url]
    calls [urlparse] with no handler, so for [http://[] it raises
    [ValueError] and returns no string, in every environment.  And the
    loop for duplicate names splits the name with [os.path.splitext], for
    which a leading dot starts no extension: for
    [https://example.com/.png] lines 71 to 86 give [.png], and in a
    directory that holds a file of that name the loop renames it to
    [.png_1], which ends in no image extension, not in the extension
    guessed from the content type, and not in [.jpg]; under that name the
    download is saved. *)
Theorem final_name_not_ensured (env : Env) (content_type : string) :
  extract_filename_from_url env "http://[" = Raise (ValueError "Invalid IPv6 URL")
  ∧ resolve_filename env "http://[" EmptyString content_type
    = Raise (ValueError "Invalid IPv6 URL")
  ∧ resolve_filename (png_env (Return EmptyString)) "https://example.com/.png"
      EmptyString "image/png" = Return ".png"
  ∧ OsPath.splitext ".png" = (".png", EmptyString)
  ∧ avoid_collision "Fetched_Images" ".png" dotfile_world
    = (Return (".png_1", "Fetched_Images/.png_1"), dotfile_world)
  ∧ existsb (PyStr.endswith (PyStr.lower ".png_1")) image_extensions = false
  ∧ guess_extension (png_env (Return EmptyString)) "image/png" = Some ".png"
  ∧ PyStr.endswith ".png_1" ".png" = false
  ∧ PyStr.endswith ".png_1" ".jpg" = false
  ∧ (download_image (png_env (Return EmptyString)) "https://example.com/.png"
       "Fetched_Images" dotfile_world).1 = Return true
  ∧ files (download_image (png_env (Return EmptyString)) "https://example.com/.png"
             "Fetched_Images" dotfile_world).2 !! "Fetched_Images/.png_1" = Some "png".
Proof.
  split; [reflexivity|]. split; [reflexivity|].
  repeat split; vm_compute; reflexivity.
Qed.

(** ** What a computation leaves alone *)

Section Frame.
Context {X : Type} (f : World → X).
Hypothesis f_stdout : ∀ out w, f (set_stdout out w) = f w.

Lemma keeps_ret {A} (a : A) : keeps f (mret a).
Proof. by intros w. Qed.

Lemma keeps_lift {A} (o : outcome A) : keeps f (lift o).
Proof. by intros w. Qed.

Lemma keeps_bind {A B} (m : M A) (k : A → M B) :
  keeps f m → (∀ a, keeps f (k a)) → keeps f (m ≫= k).
Proof.
  intros Hm Hk w. unfold mbind, M_bind. specialize (Hm w).
  destruct (m w) as [[a|e|] w']; [|done..]. cbn [snd] in Hm.
  by rewrite Hk.
Qed.

Lemma keeps_try_except {A} (body : M A) (handlers : exn → option (M A)) :
  keeps f body → (∀ e h, handlers e = Some h → keeps f h) →
  keeps f (try_except body handlers).
Proof.
  intros Hbody Hh w. unfold try_except. specialize (Hbody w).
  destruct (body w) as [[a|e|] w']; [done| |done]. cbn [snd] in Hbody.
  destruct (handlers e) as [h|] eqn:He; [|done].
  by rewrite (Hh e h He).
Qed.

Lemma keeps_print line : keeps f (print line).
Proof. intros w. apply f_stdout. Qed.

Lemma keeps_input env prompt : keeps f (input env prompt).
Proof. intros w. apply f_stdout. Qed.

Lemma keeps_banner : keeps f banner.
Proof. unfold banner. repeat (apply keeps_bind; [|intros _]); apply keeps_print. Qed.

Hypothesis f_dirs : ∀ d w, f (set_dirs d w) = f w.

Lemma keeps_makedirs env name : keeps f (makedirs env name).
Proof.
  intros w. unfold makedirs.
  destruct (bool_decide _); [done|]. destruct (bool_decide _); [done|].
  destruct (mkdir_error env name); [done|]. apply f_dirs.
Qed.

Lemma keeps_create_directory env name : keeps f (create_directory env name).
Proof.
  unfold create_directory. apply keeps_try_except.
  - apply keeps_bind; [apply keeps_makedirs|intros _].
    apply keeps_bind; [apply keeps_print|intros _]. apply keeps_ret.
  - intros e h He. destruct e; simplify_eq/=;
      (apply keeps_bind; [apply keeps_print|intros _; apply keeps_ret]).
Qed.

End Frame.

(** ** The directory *)

Lemma makedirs_raise_world env name w e :
  (makedirs env name w).1 = Raise e → (makedirs env name w).2 = w.
Proof.
  unfold makedirs. destruct (bool_decide _); [done|]. destruct (bool_decide _); [done|].
  by destruct (mkdir_error env name).
Qed.

Lemma makedirs_return_dir env name w :
  (makedirs env name w).1 = Return tt → name ∈ dirs (makedirs env name w).2.
Proof.
  unfold makedirs. destruct (bool_decide_reflect (name ∈ dirs w)); [done|].
  destruct (bool_decide _); [done|].
  destruct (mkdir_error env name); [done|]. intros _. cbn. set_solver.
Qed.

Lemma makedirs_not_diverge env name w : (makedirs env name w).1 ≠ Diverge.
Proof.
  unfold makedirs. destruct (bool_decide _); [done|]. destruct (bool_decide _); [done|].
  by destruct (mkdir_error env name).
Qed.

(** The outcome of [makedirs] depends on the directories and files only. *)
Lemma makedirs_outcome_ext env name w1 w2 :
  dirs w1 = dirs w2 → files w1 = files w2 →
  (makedirs env name w1).1 = (makedirs env name w2).1.
Proof.
  intros Hd Hf. unfold makedirs. rewrite Hd, Hf.
  destruct (bool_decide _); [done|]. destruct (bool_decide _); [done|].
  by destruct (mkdir_error env name).
Qed.

Lemma create_directory_success env name w :
  (makedirs env name w).1 = Return tt →
  create_directory env name w
  = (Return (Some name),
     set_stdout (stdout (makedirs env name w).2 ++ ["✓ Directory '" +:+ name +:+ "' is ready"])
       (makedirs env name w).2).
Proof.
  intros H. unfold create_directory, try_except, mbind, M_bind.
  destruct (makedirs env name w) as [[[]|e|] w']; simplify_eq/=. done.
Qed.

Lemma create_directory_failure env name w e :
  (makedirs env name w).1 = Raise e → is_Exception e = true →
  (create_directory env name w).1 = Return None.
Proof.
  intros H He. unfold create_directory, try_except, mbind, M_bind.
  destruct (makedirs env name w) as [[[]|e'|] w']; simplify_eq/=.
  by destruct e.
Qed.

Lemma create_directory_some env name w d :
  (create_directory env name w).1 = Return (Some d) →
  (makedirs env name w).1 = Return tt.
Proof.
  unfold create_directory, try_except, mbind, M_bind.
  destruct (makedirs env name w) as [[[]|e|] w']; [done| |done].
  by destruct e.
Qed.

Lemma M_bind_unfold {A B} (m : M A) (k : A → M B) (w : World) :
  (m ≫= k) w
  = match m w with
    | (Return a, w') => k a w'
    | (Raise e, w') => (Raise e, w')
    | (Diverge, w') => (Diverge, w')
    end.
Proof. reflexivity. Qed.

Lemma banner_returns w : (banner w).1 = Return tt.
Proof. reflexivity. Qed.

(** [main] up to the directory: the banner is printed and
    [create_directory] is run. *)
Lemma main_unfold env w :
  main env w
  = match create_directory env "Fetched_Images" (banner w).2 with
    | (Return (Some (String _ _ as d)), w') => try_except (main_body env d) main_handlers w'
    | (Return _, w') => (Return tt, w')
    | (Raise e, w') => (Raise e, w')
    | (Diverge, w') => (Diverge, w')
    end.
Proof.
  unfold main. rewrite M_bind_unfold.
  pose proof (banner_returns w) as Hret.
  destruct (banner w) as [o wb]. cbn [fst snd] in *. subst o.
  rewrite M_bind_unfold.
  by destruct (create_directory env "Fetched_Images" wb) as [[[[|c d]|]| |] wd].
Qed.

Lemma main_requests_after_directory_failure env w :
  (create_directory env "Fetched_Images" (banner w).2).1 = Return None →
  (main env w).1 = Return tt
  ∧ requests (main env w).2 = requests w
  ∧ files (main env w).2 = files w.
Proof.
  intros Hnone. rewrite main_unfold.
  pose proof (keeps_banner requests (λ _ _, eq_refl) w) as Hreq.
  pose proof (keeps_banner files (λ _ _, eq_refl) w) as Hfiles.
  pose proof (keeps_create_directory requests (λ _ _, eq_refl) (λ _ _, eq_refl)
                env "Fetched_Images" (banner w).2) as Hreq'.
  pose proof (keeps_create_directory files (λ _ _, eq_refl) (λ _ _, eq_refl)
                env "Fetched_Images" (banner w).2) as Hfiles'.
  destruct (create_directory env "Fetched_Images" (banner w).2) as [od wd].
  cbn [fst snd] in *. subst od. cbn [fst snd].
  repeat split; congruence.
Qed.

(** C7.  The directory ensurer, for every path and world.
    (1) When [os.makedirs] succeeds, [create_directory] returns the path.
    (2) A directory that is there already is a success.
    (3) After a call that returned the path, a second call on the same path
        returns the path again.
    (4) When [os.makedirs] raises an [Exception], a permission failure or
        any other, [create_directory] returns [None], not the path.
    (5) When that happens in [main], [main] returns with no GET request
        issued and no file written. *)
Theorem create_directory_contract (env : Env) (name : string) (w : World) :
  ((makedirs env name w).1 = Return tt →
   (create_directory env name w).1 = Return (Some name))
  ∧ (name ∈ dirs w → (create_directory env name w).1 = Return (Some name))
  ∧ ((create_directory env name w).1 = Return (Some name) →
     (create_directory env name (create_directory env name w).2).1 = Return (Some name))
  ∧ (∀ e, (makedirs env name w).1 = Raise e → is_Exception e = true →
          (create_directory env name w).1 = Return None)
  ∧ (∀ e, (makedirs env "Fetched_Images" w).1 = Raise e → is_Exception e = true →
          (main env w).1 = Return tt
          ∧ requests (main env w).2 = requests w
          ∧ files (main env w).2 = files w).
Proof.
  assert (Hexisting : ∀ w', name ∈ dirs w' →
            (create_directory env name w').1 = Return (Some name)).
  { intros w' Hin. rewrite create_directory_success; [done|].
    unfold makedirs. by rewrite (bool_decide_eq_true_2 _ Hin). }
  split; [|split; [|split; [|split]]].
  - intros H. by rewrite create_directory_success.
  - apply Hexisting.
  - intros H. apply create_directory_some in H.
    apply Hexisting. rewrite (create_directory_success _ _ _ H). cbn.
    by apply makedirs_return_dir.
  - apply create_directory_failure.
  - intros e H He. apply main_requests_after_directory_failure.
    apply (create_directory_failure env _ _ e); [|done].
    by rewrite (makedirs_outcome_ext env _ _ w).
Qed.

Lemma create_directory_contract_witness :
  (create_directory (sample_env (Return EmptyString)) "Fetched_Images"
     (create_directory (sample_env (Return EmptyString)) "Fetched_Images" empty_world).2).1
  = Return (Some "Fetched_Images")
  ∧ (create_directory (readonly_env (Return EmptyString)) "Fetched_Images" empty_world).1
    = Return None
  ∧ requests (main (readonly_env (Return "https://example.com/download")) empty_world).2 = [].
Proof.
  split; [|split].
  - apply (create_directory_contract (sample_env (Return EmptyString))
             "Fetched_Images" empty_world).
    vm_compute. reflexivity.
  - apply (proj1 (proj2 (proj2 (proj2
             (create_directory_contract (readonly_env (Return EmptyString))
                "Fetched_Images" empty_world))))
             (PermissionError "[Errno 13] Permission denied: 'Fetched_Images'")).
    + vm_compute. reflexivity.
    + reflexivity.
  - apply (proj2 (proj2 (proj2 (proj2
             (create_directory_contract (readonly_env (Return "https://example.com/download"))
                "Fetched_Images" empty_world))))
             (PermissionError "[Errno 13] Permission denied: 'Fetched_Images'")).
    + vm_compute. reflexivity.
    + reflexivity.
Defined.

(** ** Empty input *)

Lemma main_body_empty_line env line directory w :
  stdin env = Return line → PyStr.strip_ws line = EmptyString →
  try_except (main_body env directory) main_handlers w
  = (input env "🌐 Please enter the image URL: " ;; print "✗ No URL provided. Exiting.") w.
Proof.
  intros Hline Hstrip. unfold try_except, main_body, mbind, M_bind, input.
  rewrite Hline, Hstrip. reflexivity.
Qed.

(** C9.  When the line read is empty, or white space only ([str.strip()]
    leaves nothing of it), [main] does what the program without the
    download would do: banner, directory, prompt, and the message that no
    URL was provided.  [download_image] is not run: no GET request is
    issued and no file is written; and when the directory could be ensured,
    [main] returns after printing that message. *)
Theorem empty_input_skips_download (env : Env) (line : string) (w : World) :
  stdin env = Return line → PyStr.strip_ws line = EmptyString →
  main env w
  = (banner ;;
     directory ← create_directory env "Fetched_Images";
     match directory with
     | Some (String _ _) =>
         input env "🌐 Please enter the image URL: " ;;
         print "✗ No URL provided. Exiting."
     | _ => mret tt
     end) w
  ∧ requests (main env w).2 = requests w
  ∧ files (main env w).2 = files w
  ∧ ((makedirs env "Fetched_Images" w).1 = Return tt →
     (main env w).1 = Return tt
     ∧ ∃ out, stdout (main env w).2
              = out ++ ["🌐 Please enter the image URL: "; "✗ No URL provided. Exiting."]).
Proof.
  intros Hline Hstrip.
  set (short := banner ;;
     directory ← create_directory env "Fetched_Images";
     match directory with
     | Some (String _ _) =>
         input env "🌐 Please enter the image URL: " ;;
         print "✗ No URL provided. Exiting."
     | _ => mret tt
     end).
  assert (Heq : main env w = short w).
  { rewrite main_unfold. unfold short. rewrite M_bind_unfold.
    pose proof (banner_returns w) as Hret.
    destruct (banner w) as [o wb]. cbn [fst snd] in *. subst o.
    rewrite M_bind_unfold.
    destruct (create_directory env "Fetched_Images" wb) as [[[[|c d]|]| |] wd]; try done.
    by apply main_body_empty_line with line. }
  assert (Hkeeps : ∀ X (f : World → X),
            (∀ out w', f (set_stdout out w') = f w') →
            (∀ d w', f (set_dirs d w') = f w') → keeps f short).
  { intros X f Hout Hdirs. unfold short.
    apply keeps_bind; [by apply keeps_banner|intros _].
    apply keeps_bind; [by apply keeps_create_directory|intros [[|c d]|]].
    - by apply keeps_ret.
    - apply keeps_bind; [by apply keeps_input|intros _]. by apply keeps_print.
    - by apply keeps_ret. }
  split; [done|]. rewrite Heq. split; [by apply Hkeeps|]. split; [by apply Hkeeps|].
  intros Hdir. rewrite <- Heq, main_unfold.
  assert (Hdir' : (makedirs env "Fetched_Images" (banner w).2).1 = Return tt).
  { by rewrite (makedirs_outcome_ext env _ _ w). }
  rewrite (create_directory_success _ _ _ Hdir').
  rewrite (main_body_empty_line env line) by done.
  match goal with |- context [(_ ≫= _) ?w1] => generalize w1 end. intros w1.
  unfold mbind, M_bind, input. rewrite Hline. split; [reflexivity|].
  exists (stdout w1). cbn. by rewrite <- (assoc_L (++)).
Qed.

Lemma empty_input_skips_download_witness :
  requests (main (sample_env (Return blank_line)) empty_world).2 = []
  ∧ (main (sample_env (Return blank_line)) empty_world).1 = Return tt.
Proof.
  split.
  - apply (empty_input_skips_download (sample_env (Return blank_line)) blank_line
             empty_world);
      vm_compute; reflexivity.
  - apply (proj2 (proj2 (proj2
             (empty_input_skips_download (sample_env (Return blank_line)) blank_line
                empty_world eq_refl eq_refl)))).
    vm_compute. reflexivity.
Defined.

(** ** What [download_image] returns *)

Ltac handlers_cbn :=
  unfold download_handlers;
  cbn [is_HTTPError is_ConnectionError is_Timeout is_RequestException
       is_PermissionError is_Exception exn_str].

Section Safe.

Lemma safe_ret {A} (a : A) : safe (mret a).
Proof. by intros w. Qed.

Lemma safe_print line : safe (print line).
Proof. by intros w. Qed.

Lemma safe_bind {A B} (m : M A) (k : A → M B) :
  safe m → (∀ a, safe (k a)) → safe (m ≫= k).
Proof.
  intros Hm Hk w. rewrite M_bind_unfold. specialize (Hm w).
  destruct (m w) as [[a|e|] w']; cbn [fst] in *; [apply Hk|done..].
Qed.

Lemma safe_lift_raise {A} e : is_Exception e = true → safe (lift (Raise e) : M A).
Proof. by intros He w. Qed.

Lemma safe_raise_for_status r : safe (raise_for_status r).
Proof.
  unfold raise_for_status. destruct (_ && _); [by apply safe_lift_raise|].
  destruct (_ && _); [by apply safe_lift_raise|apply safe_ret].
Qed.

(** [urlparse] ends, and the one exception it raises is [ValueError]. *)
Lemma urlparse_outcome env url :
  match UrlLib.urlparse env url with
  | Return _ => True
  | Raise e => ∃ msg, e = ValueError msg
  | Diverge => False
  end.
Proof.
  unfold UrlLib.urlparse, UrlLib.urlsplit.
  repeat case_match; simplify_eq; eauto.
Qed.

Lemma safe_resolve_filename env url content_disposition content_type :
  safe (lift (resolve_filename env url content_disposition content_type)).
Proof.
  intros w. cbn [lift fst]. unfold resolve_filename, get_filename.
  destruct (PyStr.contains _ _); [done|].
  unfold extract_filename_from_url.
  pose proof (urlparse_outcome env url) as Hparse.
  destruct (UrlLib.urlparse env url) as [r|e|];
    cbn [mbind outcome_bind mret outcome_ret]; [|by destruct Hparse as [msg ->]|done].
  by repeat case_match.
Qed.

Lemma safe_avoid_collision directory filename : safe (avoid_collision directory filename).
Proof.
  intros w. destruct (avoid_collision_total directory filename w) as (name & -> & _). done.
Qed.

Lemma safe_getsize filepath : safe (getsize filepath).
Proof. intros w. unfold getsize. by destruct (files w !! filepath). Qed.

Variable env : Env.
Hypothesis Henv : uninterrupted env.

Lemma safe_open_wb filepath : safe (open_wb env filepath).
Proof.
  intros w. unfold open_wb. destruct (open_error env filepath) as [e|] eqn:He; [|done].
  cbn [fst]. by apply Henv in He.
Qed.

Lemma safe_write filepath n chunk : safe (write env filepath n chunk).
Proof.
  intros w. unfold write. destruct (write_error env filepath n) as [e|] eqn:He; [|done].
  cbn [fst]. by apply Henv in He.
Qed.

Lemma safe_write_chunks filepath cs : ∀ n, safe (write_chunks env filepath n cs).
Proof.
  induction cs as [|chunk cs IH]; intros n; cbn [write_chunks]; [apply safe_ret|].
  apply safe_bind; [|intros _; apply IH].
  destruct (negb _); [apply safe_write|apply safe_ret].
Qed.

Lemma safe_download_body url directory : safe (download_body env url directory).
Proof.
  unfold download_body.
  apply safe_bind; [apply safe_print|intros _].
  intros w. rewrite M_bind_unfold. unfold requests_get.
  destruct Henv as (Hget & _ & _). specialize (Hget url).
  destruct (http_get env url) as [r|e|]; cbn [fst]; [|done..].
  generalize (set_requests (requests w ++ [url]) w). clear w.
  apply safe_bind; [apply safe_raise_for_status|intros _].
  apply safe_bind.
  { destruct (negb _); [|apply safe_ret].
    apply safe_bind; [apply safe_print|intros _; apply safe_print]. }
  intros _. apply safe_bind; [apply safe_resolve_filename|intros filename].
  apply safe_bind; [apply safe_avoid_collision|intros [name filepath]].
  apply safe_bind; [apply safe_print|intros _].
  apply safe_bind; [apply safe_open_wb|intros _].
  apply safe_bind; [apply safe_write_chunks|intros _].
  apply safe_bind.
  { destruct (stream_error r) as [e|] eqn:He; [|apply safe_ret].
    apply safe_lift_raise. by apply Hget. }
  intros _. apply safe_bind; [apply safe_getsize|intros size].
  apply safe_bind; [apply safe_print|intros _].
  apply safe_bind; [apply safe_print|intros _]. apply safe_ret.
Qed.

(** The handler chain turns every [Exception] into [False]. *)
Lemma download_handlers_catch (body : M bool) (w : World) :
  safe body → ∃ b w', try_except body download_handlers w = (Return b, w').
Proof.
  intros Hsafe. unfold try_except. specialize (Hsafe w).
  destruct (body w) as [[b|e|] w']; cbn [fst] in *; [by eauto| |done].
  destruct e; try done; handlers_cbn; rewrite M_bind_unfold; cbn; eauto.
Qed.

(** When [urlparse] accepts the URL and nothing interrupts the program,
    [download_image] returns a Boolean: no exception leaves it. *)
Lemma download_image_returns_bool url directory w :
  is_Return (UrlLib.urlparse env url) = true →
  ∃ b w', download_image env url directory w = (Return b, w').
Proof.
  intros Hparse. unfold download_image.
  destruct (negb _); [by eauto|].
  assert (Hvalid : ∃ valid, is_valid_image_url env url = Return valid).
  { unfold is_valid_image_url.
    destruct (UrlLib.urlparse env url) as [r| |]; [|done..]. by eexists. }
  destruct Hvalid as [valid ->].
  rewrite M_bind_unfold. cbn [lift]. rewrite M_bind_unfold.
  destruct (negb valid).
  - rewrite M_bind_unfold. cbn [print]. apply download_handlers_catch, safe_download_body.
  - cbn [mret M_ret]. apply download_handlers_catch, safe_download_body.
Qed.

End Safe.

(** C8.  [download_image] does not return a Boolean for every input: the
    check of the URL's extension runs before the [try] statement, and
    [urlparse] raises [ValueError] for a netloc with an opening bracket and
    no closing one.  For [http://[] the exception leaves [download_image]
    in every environment, with nothing printed and nothing returned. *)
Theorem download_image_raises_on_bad_netloc (env : Env) (directory : string) (w : World) :
  download_image env "http://[" directory w = (Raise (ValueError "Invalid IPv6 URL"), w).
Proof. reflexivity. Qed.

(** The exception is not caught by [main] either: the program ends with it. *)
Lemma main_raises_on_bad_netloc (env : Env) (w : World) :
  stdin env = Return "http://[" →
  (makedirs env "Fetched_Images" w).1 = Return tt →
  (main env w).1 = Raise (ValueError "Invalid IPv6 URL").
Proof.
  intros Hline Hdir. rewrite main_unfold.
  assert (Hdir' : (makedirs env "Fetched_Images" (banner w).2).1 = Return tt).
  { by rewrite (makedirs_outcome_ext env _ _ w). }
  rewrite (create_directory_success _ _ _ Hdir').
  unfold try_except, main_body. rewrite M_bind_unfold. unfold input. rewrite Hline.
  reflexivity.
Qed.

(** ** When [download_image] returns [True] *)

Lemma bind_return_inv {A B} (m : M A) (k : A → M B) w b w' :
  (m ≫= k) w = (Return b, w') → ∃ a w1, m w = (Return a, w1) ∧ k a w1 = (Return b, w').
Proof.
  rewrite M_bind_unfold. destruct (m w) as [[a|e|] w1]; [by eauto|done..].
Qed.

Lemma download_handlers_false e h w b w' :
  download_handlers e = Some h → h w = (Return b, w') → b = false.
Proof.
  intros He Hh. destruct e; unfold download_handlers in He; simplify_eq/=;
    apply bind_return_inv in Hh as (? & ? & _ & Hret);
    unfold mret, M_ret in Hret; by simplify_eq.
Qed.

Lemma try_except_true_inv (body : M bool) w w' :
  try_except body download_handlers w = (Return true, w') → body w = (Return true, w').
Proof.
  unfold try_except. destruct (body w) as [[b|e|] w1]; [done| |done].
  destruct (download_handlers e) as [h|] eqn:He; [|done].
  intros Hh. by apply (download_handlers_false e h w1 true w') in Hh.
Qed.

Lemma write_chunks_content env filepath cs :
  ∀ n w w' content,
    files w !! filepath = Some content →
    write_chunks env filepath n cs w = (Return tt, w') →
    files w' !! filepath = Some (content +:+ foldr String.append EmptyString cs)
    ∧ dirs w' = dirs w.
Proof.
  induction cs as [|chunk cs IH]; intros n w w' content Hc Hrun; cbn [write_chunks] in Hrun.
  - unfold mret, M_ret in Hrun. simplify_eq. cbn [foldr]. by rewrite app_nil_r.
  - apply bind_return_inv in Hrun as ([] & w1 & Hwrite & Hrest).
    cbn [foldr]. destruct (String.eqb_spec chunk EmptyString) as [->|Hne];
      cbn [negb] in Hwrite.
    + unfold mret, M_ret in Hwrite. simplify_eq. rewrite app_nil_l.
      by apply (IH _ _ _ _ Hc Hrest).
    + unfold write in Hwrite. destruct (write_error env filepath n); [done|].
      cbv zeta in Hwrite. simplify_eq. rewrite Hc in Hrest. cbn [default] in Hrest.
      eapply IH in Hrest as [Hfile Hdirs]; [|apply lookup_insert_eq].
      split; [|done]. by rewrite Hfile, app_assoc'.
Qed.

Lemma keeps_run {A X} (f : World → X) (m : M A) w o w' :
  keeps f m → m w = (o, w') → f w' = f w.
Proof. intros Hk Hrun. specialize (Hk w). by rewrite Hrun in Hk. Qed.

Lemma keeps_raise_for_status {X} (f : World → X) r : keeps f (raise_for_status r).
Proof. unfold raise_for_status. by repeat case_match. Qed.

Lemma keeps_requests_get {X} (f : World → X) env url :
  (∀ rs w, f (set_requests rs w) = f w) → keeps f (requests_get env url).
Proof. intros Hf w. apply Hf. Qed.

Lemma keeps_avoid_collision {X} (f : World → X) directory filename :
  keeps f (avoid_collision directory filename).
Proof.
  intros w. by destruct (avoid_collision_total directory filename w) as (name & -> & _).
Qed.

Lemma keeps_if_print2 {X} (f : World → X) (b : bool) line1 line2 :
  (∀ out w, f (set_stdout out w) = f w) →
  keeps f (if b then print line1 ;; print line2 else mret tt).
Proof.
  intros Hout. destruct b; [|apply keeps_ret].
  apply keeps_bind; [by apply keeps_print|intros _; by apply keeps_print].
Qed.

(** [True] is returned only after the whole stream was written: the
    request returned a response whose stream ended without error, and the
    file at the path chosen, at which nothing existed before, holds all the
    chunks in order. *)
Lemma download_image_true_complete env url directory w w' :
  download_image env url directory w = (Return true, w') →
  ∃ r name,
    http_get env url = Return r
    ∧ stream_error r = None
    ∧ OsPath.exists_ w (OsPath.join directory name) = false
    ∧ files w' !! OsPath.join directory name
      = Some (foldr String.append EmptyString (chunks r)).
Proof.
  unfold download_image. destruct (negb _).
  { intros Hrun. apply bind_return_inv in Hrun as (? & ? & _ & Hret).
    unfold mret, M_ret in Hret. by simplify_eq. }
  intros Hrun.
  apply bind_return_inv in Hrun as (valid & w0 & Hvalid & Hrun).
  apply bind_return_inv in Hrun as ([] & w1 & Hwarn & Hrun).
  assert (Hw1 : ∀ X (f : World → X),
            (∀ out w, f (set_stdout out w) = f w) → f w1 = f w).
  { intros X f Hout.
    rewrite (keeps_run f _ _ _ _ (keeps_if_print2 f _ _ _ Hout) Hwarn).
    by apply (keeps_run f _ _ _ _ (keeps_lift f _) Hvalid). }
  apply try_except_true_inv in Hrun. unfold download_body in Hrun.
  apply bind_return_inv in Hrun as ([] & w2 & Hprint & Hrun).
  apply bind_return_inv in Hrun as (r & w3 & Hget & Hrun).
  apply bind_return_inv in Hrun as ([] & w4 & Hstatus & Hrun).
  apply bind_return_inv in Hrun as ([] & w5 & Hct & Hrun).
  apply bind_return_inv in Hrun as (found & w6 & Hresolve & Hrun).
  apply bind_return_inv in Hrun as ([name filepath] & w7 & Hloop & Hrun).
  apply bind_return_inv in Hrun as ([] & w8 & Hprint' & Hrun).
  apply bind_return_inv in Hrun as ([] & w9 & Hopen & Hrun).
  apply bind_return_inv in Hrun as ([] & w10 & Hwrite & Hrun).
  apply bind_return_inv in Hrun as ([] & w11 & Hstream & Hrun).
  apply bind_return_inv in Hrun as (size & w12 & Hsize & Hrun).
  assert (Hw6 : ∀ X (f : World → X),
            (∀ out w, f (set_stdout out w) = f w) →
            (∀ rs w, f (set_requests rs w) = f w) → f w6 = f w).
  { intros X f Hout Hreq.
    rewrite (keeps_run f _ _ _ _ (keeps_lift f _) Hresolve).
    rewrite (keeps_run f _ _ _ _ (keeps_if_print2 f _ _ _ Hout) Hct).
    rewrite (keeps_run f _ _ _ _ (keeps_raise_for_status f r) Hstatus).
    rewrite (keeps_run f _ _ _ _ (keeps_requests_get f env url Hreq) Hget).
    rewrite (keeps_run f _ _ _ _ (keeps_print f Hout _) Hprint).
    by apply Hw1. }
  unfold requests_get in Hget. injection Hget as Hget _.
  destruct (avoid_collision_total directory found w6) as (name' & Hloop' & Hfree).
  rewrite Hloop' in Hloop. injection Hloop as <- <- <-.
  exists r, name'. split; [done|]. split.
  { destruct (stream_error r); [|done]. by unfold lift in Hstream. }
  split.
  { unfold OsPath.exists_ in *.
    by rewrite <- (Hw6 _ dirs), <- (Hw6 _ files). }
  unfold print in Hprint'. injection Hprint' as <-.
  unfold open_wb in Hopen. destruct (open_error env _); [done|].
  injection Hopen as <-.
  eapply write_chunks_content in Hwrite as [Hfile _]; [|apply lookup_insert_eq].
  rewrite app_nil_l in Hfile.
  assert (w11 = w10) as ->.
  { destruct (stream_error r); [by unfold lift in Hstream|].
    unfold mret, M_ret in Hstream. by simplify_eq. }
  unfold getsize in Hsize. destruct (files w10 !! _) eqn:Hlook; [|done].
  injection Hsize as _ <-.
  apply bind_return_inv in Hrun as ([] & w13 & Hp1 & Hrun).
  apply bind_return_inv in Hrun as ([] & w14 & Hp2 & Hrun).
  unfold mret, M_ret in Hrun. injection Hrun as <-.
  unfold print in Hp1, Hp2. injection Hp1 as <-. injection Hp2 as <-.
  cbn [files set_stdout]. congruence.
Qed.

(** * Further properties of the program *)

(** ** Running a computation step by step *)

Section Wp.
Context {A : Type}.
Implicit Types (Q : A → World → Prop) (E : exn → World → Prop) (D : World → Prop).

Lemma wp_run (m : M A) Q E D w : wp m Q E D w → ∀ R : World → Prop,
  (∀ a w', Q a w' → R w') → (∀ e w', E e w' → R w') → (∀ w', D w' → R w') →
  R (m w).2.
Proof.
  unfold wp. intros H R HQ HE HD. destruct (m w) as [[a|e|] w']; cbn [snd]; eauto.
Qed.

Lemma wp_mono (m : M A) Q Q' E E' D D' w :
  (∀ a w', Q a w' → Q' a w') → (∀ e w', E e w' → E' e w') → (∀ w', D w' → D' w') →
  wp m Q E D w → wp m Q' E' D' w.
Proof. unfold wp. intros HQ HE HD. destruct (m w) as [[a|e|] w']; eauto. Qed.

Lemma wp_ret (a : A) Q E D w : Q a w → wp (mret a) Q E D w.
Proof. done. Qed.

Lemma wp_lift (o : outcome A) Q E D w :
  match o with Return a => Q a w | Raise e => E e w | Diverge => D w end →
  wp (lift o) Q E D w.
Proof. unfold wp, lift. by destruct o. Qed.

Lemma wp_bind {B} (m : M B) (k : B → M A) Q E D w :
  wp m (λ b w', wp (k b) Q E D w') E D w → wp (m ≫= k) Q E D w.
Proof. unfold wp. rewrite M_bind_unfold. by destruct (m w) as [[b|e|] w']. Qed.

Lemma wp_try_except (body : M A) (handlers : exn → option (M A)) Q E D w :
  wp body Q (λ e w', match handlers e with
                     | Some h => wp h Q E D w'
                     | None => E e w'
                     end) D w →
  wp (try_except body handlers) Q E D w.
Proof.
  unfold wp, try_except. destruct (body w) as [[a|e|] w']; [done| |done].
  by destruct (handlers e).
Qed.

End Wp.

Lemma wp_print line (Q : unit → World → Prop) E D w :
  Q tt (set_stdout (stdout w ++ [line]) w) → wp (print line) Q E D w.
Proof. done. Qed.

Lemma wp_requests_get env url (Q : Response → World → Prop) E D w :
  match http_get env url with
  | Return r => Q r (set_requests (requests w ++ [url]) w)
  | Raise e => E e (set_requests (requests w ++ [url]) w)
  | Diverge => D (set_requests (requests w ++ [url]) w)
  end →
  wp (requests_get env url) Q E D w.
Proof. unfold wp, requests_get. by destruct (http_get env url). Qed.

Lemma wp_raise_for_status r (Q : unit → World → Prop) (E : exn → World → Prop) D w :
  (status_code r < 400 ∨ 600 ≤ status_code r → Q tt w) →
  (400 ≤ status_code r < 600 → ∀ msg, E (HTTPError msg) w) →
  wp (raise_for_status r) Q E D w.
Proof.
  intros HQ HE. unfold wp, raise_for_status.
  destruct (Nat.leb_spec 400 (status_code r)), (Nat.ltb_spec (status_code r) 500),
    (Nat.leb_spec 500 (status_code r)), (Nat.ltb_spec (status_code r) 600);
    cbn [andb lift mret M_ret]; try lia; try (apply HE; lia); apply HQ; lia.
Qed.

(** After the loop the name has a path in the directory at which nothing
    exists, and the world is as before. *)
Lemma wp_avoid_collision directory filename (Q : string * string → World → Prop) E D w :
  (∀ name, avoid_collision directory filename w
           = (Return (name, OsPath.join directory name), w) →
           OsPath.exists_ w (OsPath.join directory name) = false →
           Q (name, OsPath.join directory name) w) →
  wp (avoid_collision directory filename) Q E D w.
Proof.
  intros HQ. unfold wp.
  destruct (avoid_collision_total directory filename w) as (name & Hrun & Hfree).
  rewrite Hrun. eauto.
Qed.

Lemma wp_open_wb env filepath (Q : unit → World → Prop) (E : exn → World → Prop) D w :
  match open_error env filepath with
  | Some e => E e w
  | None => Q tt (set_files (<[filepath := EmptyString]> (files w)) w)
  end →
  wp (open_wb env filepath) Q E D w.
Proof. unfold wp, open_wb. by destruct (open_error env filepath). Qed.

Lemma wp_getsize filepath (Q : nat → World → Prop) (E : exn → World → Prop) D w content :
  files w !! filepath = Some content → Q (String.length content) w →
  wp (getsize filepath) Q E D w.
Proof. intros Hc HQ. unfold wp, getsize. by rewrite Hc. Qed.

(** What [write_chunks] does to the world, however it ends: only the file
    written changes.  After the last chunk it holds what it held followed
    by the chunks; after a write that failed, as much of what was written,
    the failing chunk included, as reached it. *)
Lemma write_chunks_footprint env filepath cs :
  ∀ n w content, files w !! filepath = Some content →
    ∃ stored,
      (write_chunks env filepath n cs w).2
      = set_files (<[filepath := stored]> (files w)) w
      ∧ match (write_chunks env filepath n cs w).1 with
        | Return _ =>
            stored = content +:+ foldr String.append EmptyString cs
            ∧ ∀ k chunk, cs !! k = Some chunk → chunk ≠ EmptyString →
                         write_error env filepath (n + k) = None
        | Raise e => ∃ k chunk, cs !! k = Some chunk ∧ chunk ≠ EmptyString
                       ∧ write_error env filepath (n + k) = Some e
                       ∧ stored
                         = PyStr.take (write_kept env filepath (n + k))
                             (content +:+ foldr String.append EmptyString (take k cs)
                              +:+ chunk)
        | Diverge => False
        end.
Proof.
  assert (Hid : ∀ w content, files w !! filepath = Some content →
            w = set_files (<[filepath := content]> (files w)) w).
  { intros [d f o r] content Hc. unfold set_files. cbn in *. f_equal.
    by rewrite insert_id. }
  induction cs as [|chunk cs IH]; intros n w content Hc.
  - exists content. split; [by apply Hid|]. split; [|by intros k chunk Hk].
    cbn [foldr]. by rewrite app_nil_r.
  - cbn [write_chunks]. rewrite M_bind_unfold.
    destruct (String.eqb_spec chunk EmptyString) as [->|Hne]; cbn [negb].
    + cbn [mret M_ret]. destruct (IH (S n) w content Hc) as (stored & Hw & Hout).
      exists stored. split; [done|].
      destruct (write_chunks env filepath (S n) cs w).1 as [[]|e|]; [| |done].
      { destruct Hout as [-> Hok]. split; [done|].
        intros [|k] chunk Hk Hne; [by simplify_eq/=|].
        rewrite Nat.add_succ_r. by apply (Hok k chunk). }
      cbv beta iota in Hout. destruct Hout as (k & c & Hk & Hc' & Herr & ->).
      exists (S k), c. split; [done|]. split; [done|].
      rewrite Nat.add_succ_r. split; [done|].
      cbn [take foldr]. by rewrite app_nil_l.
    + destruct (write_error env filepath n) as [e|] eqn:Herr.
      * set (w1 := set_files (<[filepath := PyStr.take (write_kept env filepath n)
                                              (content +:+ chunk)]> (files w)) w).
        assert (Hw : write env filepath n chunk w = (Raise e, w1)).
        { unfold write. by rewrite Herr, Hc. }
        rewrite Hw. cbn [fst snd].
        exists (PyStr.take (write_kept env filepath n) (content +:+ chunk)).
        split; [done|].
        exists 0, chunk. rewrite Nat.add_0_r. cbn [take foldr]. by rewrite app_nil_l.
      * set (w1 := set_files (<[filepath:=content +:+ chunk]> (files w)) w).
        assert (Hw : write env filepath n chunk w = (Return tt, w1)).
        { unfold write. by rewrite Herr, Hc. }
        rewrite Hw.
        destruct (IH (S n) w1 (content +:+ chunk)) as (stored & Hw1 & Hout).
        { apply lookup_insert_eq. }
        exists stored. split.
        { rewrite Hw1. unfold w1, set_files. cbn. f_equal.
          by rewrite insert_insert_eq. }
        destruct (write_chunks env filepath (S n) cs w1).1 as [[]|e|]; [| |done].
        -- destruct Hout as [-> Hok]. split; [by cbn [foldr]; rewrite app_assoc'|].
           intros [|k] c Hk Hne'.
           ++ by rewrite Nat.add_0_r.
           ++ rewrite Nat.add_succ_r. by apply (Hok k c).
        -- cbv beta iota in Hout. destruct Hout as (k & c & Hk & Hc' & Herr' & ->).
           exists (S k), c. split; [done|]. split; [done|].
           rewrite Nat.add_succ_r. split; [done|].
           cbn [take foldr]. by rewrite !app_assoc'.
Qed.

Ltac wp_step :=
  lazymatch goal with
  | |- wp (_ ≫= _) _ _ _ _ => apply wp_bind
  | |- wp (print _) _ _ _ _ => apply wp_print; cbv beta
  | |- wp (mret _) _ _ _ _ => apply wp_ret; cbv beta
  | |- wp (try_except _ _) _ _ _ _ => apply wp_try_except
  | |- wp (if ?b then _ else _) _ _ _ _ => destruct b
  end.

Ltac wp_steps := repeat wp_step.

(** ** What [download_image] leaves alone *)

Lemma wp_write_chunks env filepath cs n (Q : unit → World → Prop)
    (E : exn → World → Prop) D w content :
  files w !! filepath = Some content →
  (∀ stored,
     (stored = content +:+ foldr String.append EmptyString cs →
      (∀ k chunk, cs !! k = Some chunk → chunk ≠ EmptyString →
                  write_error env filepath (n + k) = None) →
      Q tt (set_files (<[filepath := stored]> (files w)) w))
     ∧ (∀ e k chunk,
          cs !! k = Some chunk → chunk ≠ EmptyString →
          write_error env filepath (n + k) = Some e →
          stored = PyStr.take (write_kept env filepath (n + k))
                     (content +:+ foldr String.append EmptyString (take k cs) +:+ chunk) →
          E e (set_files (<[filepath := stored]> (files w)) w))) →
  wp (write_chunks env filepath n cs) Q E D w.
Proof.
  intros Hc H. destruct (write_chunks_footprint env filepath cs n w content Hc)
    as (stored & Hw & Hout).
  unfold wp. destruct (write_chunks env filepath n cs w) as [[[]|e|] w'];
    cbn [fst snd] in *; subst w'.
  - destruct Hout as [Hstored Hok]. by apply H.
  - destruct Hout as (k & chunk & Hk & Hne & Herr & Hstored). by eapply H.
  - done.
Qed.

(** The loop looks at directories and files only. *)
Lemma avoid_collision_ext directory filename w1 w2 :
  dirs w1 = dirs w2 → files w1 = files w2 →
  (avoid_collision directory filename w1).1 = (avoid_collision directory filename w2).1.
Proof.
  intros Hd Hf. unfold avoid_collision, OsPath.exists_. rewrite Hd, Hf.
  destruct (OsPath.splitext filename) as [b e].
  by destruct (collision_loop _ _ _ _ _ _ _ _).
Qed.

(** A summary of [download_body]: every way it can end, with the world it
    leaves.  [w1] is the world after the request, [w2] after the warning
    about the content type, [w3] after the name is announced, [w4] after
    the writes, when the file holds [written]. *)
Lemma wp_download_body env url directory (Q : bool → World → Prop)
    (E : exn → World → Prop) (D : World → Prop) (w : World) :
  let w1 := set_requests (requests w ++ [url])
              (set_stdout (stdout w ++ ["🔗 Connecting to: " +:+ url]) w) in
  match http_get env url with
  | Raise e => E e w1
  | Diverge => D w1
  | Return r =>
      (400 ≤ status_code r < 600 → ∀ msg, E (HTTPError msg) w1)
      ∧ (status_code r < 400 ∨ 600 ≤ status_code r →
         let content_type := headers_get r "content-type" in
         let w2 :=
           if negb (PyStr.startswith content_type "image/")
           then set_stdout
                  (stdout w1
                   ++ ["⚠ Warning: Server response doesn't appear to be an image";
                       "Content-Type: " +:+ content_type]) w1
           else w1 in
         match resolve_filename env url (headers_get r "content-disposition")
                 content_type with
         | Raise e => E e w2
         | Diverge => D w2
         | Return found =>
             ∀ name,
               (avoid_collision directory found w).1
               = Return (name, OsPath.join directory name) →
               OsPath.exists_ w (OsPath.join directory name) = false →
               let filepath := OsPath.join directory name in
               let w3 := set_stdout (stdout w2 ++ ["📥 Downloading: " +:+ name]) w2 in
               match open_error env filepath with
               | Some e => E e w3
               | None =>
                   ∀ written,
                     let w4 := set_files (<[filepath := written]> (files w)) w3 in
                     (∀ e k chunk,
                        chunks r !! k = Some chunk → chunk ≠ EmptyString →
                        write_error env filepath k = Some e →
                        written
                        = PyStr.take (write_kept env filepath k)
                            (foldr String.append EmptyString (take k (chunks r))
                             +:+ chunk) →
                        E e w4)
                     ∧ (written = foldr String.append EmptyString (chunks r) →
                        (∀ k chunk, chunks r !! k = Some chunk → chunk ≠ EmptyString →
                                    write_error env filepath k = None) →
                        match stream_error r with
                        | Some e => E e w4
                        | None =>
                            Q true
                              (set_stdout
                                 (stdout w4
                                  ++ ["✅ Successfully saved: " +:+ name +:+ " ("
                                      +:+ PyStr.of_nat (String.length written)
                                      +:+ " bytes)";
                                      "📁 Location: " +:+ abspath env filepath]) w4)
                        end)
               end
         end)
  end →
  wp (download_body env url directory) Q E D w.
Proof.
  intros w1 H. unfold download_body.
  wp_step. wp_step. wp_step. apply wp_requests_get.
  change (set_requests _ _) with w1.
  destruct (http_get env url) as [r|e|]; [|done..]. destruct H as [Hbad Hgood].
  wp_step. apply wp_raise_for_status; [|done]. intros Hstatus.
  specialize (Hgood Hstatus). cbv zeta in Hgood.
  set (content_type := headers_get r "content-type") in *.
  set (w2 := if negb (PyStr.startswith content_type "image/") then _ else w1) in Hgood.
  wp_step.
  assert (Hw2 : wp (if negb (PyStr.startswith content_type "image/")
                    then print "⚠ Warning: Server response doesn't appear to be an image" ;;
                         print ("Content-Type: " +:+ content_type)
                    else mret tt)
                  (λ _ w', w' = w2) E D w1).
  { unfold w2. destruct (negb _); wp_steps; [|done].
    unfold set_stdout. cbn. f_equal. by rewrite <- (assoc_L (++)). }
  eapply wp_mono; [| | |exact Hw2]; [|done..]. intros [] ? ->.
  assert (Hsame : dirs w2 = dirs w ∧ files w2 = files w).
  { unfold w2. by destruct (negb _). }
  destruct Hsame as [Hd Hf].
  wp_step. apply wp_lift.
  destruct (resolve_filename env url _ content_type) as [found|e|]; [|done..].
  wp_step. apply wp_avoid_collision. intros name Hrun Hfree.
  assert (Hfree' : OsPath.exists_ w (OsPath.join directory name) = false).
  { unfold OsPath.exists_ in *. by rewrite <- Hd, <- Hf. }
  assert (Hname : (avoid_collision directory found w).1
                  = Return (name, OsPath.join directory name)).
  { by rewrite <- (avoid_collision_ext directory found w2 w Hd Hf), Hrun. }
  specialize (Hgood name Hname Hfree'). cbv zeta in Hgood.
  wp_step. wp_step.
  set (w3 := set_stdout (stdout w2 ++ ["📥 Downloading: " +:+ name]) w2) in *.
  wp_step. apply wp_open_wb.
  destruct (open_error env (OsPath.join directory name)) as [e|]; [done|].
  wp_step. eapply wp_write_chunks; [apply lookup_insert_eq|].
  intros written. rewrite !app_nil_l.
  assert (Hw4 : set_files (<[OsPath.join directory name:=written]>
                  (files (set_files (<[OsPath.join directory name:=EmptyString]> (files w3)) w3)))
                  (set_files (<[OsPath.join directory name:=EmptyString]> (files w3)) w3)
                = set_files (<[OsPath.join directory name:=written]> (files w)) w3).
  { unfold set_files. cbn. f_equal. rewrite insert_insert_eq. by rewrite Hf. }
  rewrite Hw4. destruct (Hgood written) as [Hfail Hdone]. split.
  - intros Hwritten Hok. specialize (Hdone Hwritten Hok).
    wp_step. destruct (stream_error r) as [e|].
    + by apply wp_lift.
    + wp_step. wp_step. eapply wp_getsize; [apply lookup_insert_eq|].
      wp_steps. unfold set_stdout in *. cbn in *.
      by rewrite <- (assoc_L (++) (stdout w2 ++ _) [_] [_]).
  - intros e k chunk Hk Hne Herr Hwritten. by apply (Hfail e k chunk).
Qed.

(** A summary of [download_image]: the gate, the check of the URL and the
    [try] statement around [download_body]. *)
Lemma wp_download_image env url directory (Q : bool → World → Prop)
    (E : exn → World → Prop) (D : World → Prop) (w : World) :
  (PyStr.startswith_any url ["http://"; "https://"] = false →
   Q false (set_stdout
              (stdout w ++ ["✗ Invalid URL: Must start with http:// or https://"]) w)) →
  (PyStr.startswith_any url ["http://"; "https://"] = true →
   match is_valid_image_url env url with
   | Raise e => E e w
   | Diverge => D w
   | Return valid =>
       wp (download_body env url directory) Q
         (λ e w', match download_handlers e with
                  | Some h => wp h Q E D w'
                  | None => E e w'
                  end) D
         (if negb valid
          then set_stdout
                 (stdout w
                  ++ ["⚠ Warning: URL doesn't appear to point to an image file";
                      "Proceeding anyway..."]) w
          else w)
   end) →
  wp (download_image env url directory) Q E D w.
Proof.
  intros Hbad Hgood. unfold download_image.
  destruct (PyStr.startswith_any url _).
  - specialize (Hgood eq_refl). cbn [negb]. wp_step. apply wp_lift.
    destruct (is_valid_image_url env url) as [valid|e|]; [|done..].
    wp_step. destruct (negb valid).
    + wp_steps. revert Hgood. unfold set_stdout. cbn.
      by rewrite <- (assoc_L (++) (stdout w) [_] [_]).
    + by wp_steps.
  - cbn [negb]. wp_steps. by apply Hbad.
Qed.

(** ** Existing files, directories and requests *)

Lemma download_image_footprint env url directory w :
  let Inv w' :=
    dirs w' = dirs w
    ∧ (∀ p c, files w !! p = Some c → files w' !! p = Some c)
    ∧ requests w'
      = if PyStr.startswith_any url ["http://"; "https://"]
           && is_Return (is_valid_image_url env url)
        then requests w ++ [url] else requests w in
  wp (download_image env url directory) (λ _, Inv) (λ _, Inv) Inv w.
Proof.
  intros Inv. apply wp_download_image.
  - intros Hgate. unfold Inv. by rewrite Hgate.
  - intros Hgate. unfold Inv. rewrite Hgate. cbn [andb].
    destruct (is_valid_image_url env url) as [valid|e|]; [|done..]. cbn [is_Return].
    set (Inv' := λ w', dirs w' = dirs w
                  ∧ (∀ p c, files w !! p = Some c → files w' !! p = Some c)
                  ∧ requests w' = requests w ++ [url]).
    assert (Hout : ∀ out w', Inv' w' → Inv' (set_stdout out w')) by done.
    eapply (wp_mono _ (λ _, Inv') _ (λ _, Inv') _ Inv' Inv'); [done| |done|].
    { intros e w' Hw'. destruct e; handlers_cbn; try done; wp_steps; done. }
    set (w0 := if negb valid then _ else w).
    assert (Hw0 : dirs w0 = dirs w ∧ files w0 = files w ∧ requests w0 = requests w).
    { unfold w0. by destruct (negb valid). }
    destruct Hw0 as (Hd & Hf & Hr).
    apply wp_download_body. cbv zeta.
    assert (Hbefore : ∀ w', dirs w' = dirs w0 → files w' = files w0 →
                           requests w' = requests w0 ++ [url] → Inv' w').
    { intros w' Hd' Hf' Hr'. unfold Inv'. rewrite Hd', Hf', Hr', Hd, Hf, Hr. done. }
    destruct (http_get env url) as [r|e|]; [|by apply Hbefore..].
    split; [intros; by apply Hbefore|]. intros Hstatus.
    assert (Hw2 : ∀ b : bool, Inv' (if b then set_stdout
        (stdout (set_requests (requests w0 ++ [url])
                   (set_stdout (stdout w0 ++ ["🔗 Connecting to: " +:+ url]) w0))
         ++ ["⚠ Warning: Server response doesn't appear to be an image";
             "Content-Type: " +:+ headers_get r "content-type"])
        (set_requests (requests w0 ++ [url])
           (set_stdout (stdout w0 ++ ["🔗 Connecting to: " +:+ url]) w0))
      else set_requests (requests w0 ++ [url])
             (set_stdout (stdout w0 ++ ["🔗 Connecting to: " +:+ url]) w0))).
    { intros []; by apply Hbefore. }
    destruct (resolve_filename env url _ _) as [found|e|]; [|by apply Hw2..].
    intros name Hname Hfree.
    destruct (open_error env _) as [e|]; [by apply Hout, Hw2|].
    assert (Hafter : ∀ written w',
              dirs w' = dirs w0 → requests w' = requests w0 ++ [url] →
              files w' = <[OsPath.join directory name := written]> (files w0) → Inv' w').
    { intros written w' Hd' Hr' Hf'. unfold Inv'. rewrite Hd', Hr', Hf', Hd, Hr.
      split; [done|]. split; [|done].
      intros p c Hp. rewrite lookup_insert_ne; [by rewrite Hf|].
      intros <-. unfold OsPath.exists_ in Hfree. apply orb_false_iff in Hfree as [_ Hfree].
      apply bool_decide_eq_false in Hfree. apply Hfree. rewrite Hf, Hp. by eexists. }
    intros written. split.
    + intros e k chunk _ _ _ _.
      by destruct (negb (PyStr.startswith _ _)); apply (Hafter written).
    + intros _ _.
      by destruct (stream_error r); destruct (negb (PyStr.startswith _ _));
        apply (Hafter written).
Qed.

(** X1.  [download_image] creates no directory and never changes a file
    that exists: for every URL, environment and outcome, the directories
    are as before and every file of the world before holds what it held. *)
Theorem download_image_never_overwrites (env : Env) (url directory : string) (w : World) :
  dirs (download_image env url directory w).2 = dirs w
  ∧ ∀ p content, files w !! p = Some content →
                 files (download_image env url directory w).2 !! p = Some content.
Proof.
  apply (wp_run _ _ _ _ _ (download_image_footprint env url directory w)
           (λ w', dirs w' = dirs w
                  ∧ ∀ p c, files w !! p = Some c → files w' !! p = Some c)).
  - by intros _ w' (Hd & Hf & _).
  - by intros _ w' (Hd & Hf & _).
  - by intros w' (Hd & Hf & _).
Qed.

Lemma download_image_never_overwrites_witness :
  files (download_image (sample_env (Return EmptyString))
           "https://example.com/path/photo.jpeg?x=1" "Fetched_Images" crowded_world).2
    !! "Fetched_Images/photo.jpeg" = Some "first".
Proof.
  apply (download_image_never_overwrites (sample_env (Return EmptyString))
           "https://example.com/path/photo.jpeg?x=1" "Fetched_Images" crowded_world).
  vm_compute. reflexivity.
Defined.

(** X2.  [download_image] calls [requests.get] once, with the URL it was
    given, when the URL passes the gate and [urlparse] accepts it, and not
    at all otherwise: the call is not repeated, whatever happens
    afterwards.  (What [requests.get] sends over the network for one call,
    redirects among it, is its own matter.) *)
Theorem download_image_single_request (env : Env) (url directory : string) (w : World) :
  requests (download_image env url directory w).2
  = if PyStr.startswith_any url ["http://"; "https://"]
       && is_Return (is_valid_image_url env url)
    then requests w ++ [url] else requests w.
Proof.
  apply (wp_run _ _ _ _ _ (download_image_footprint env url directory w)
           (λ w', requests w'
                  = if PyStr.startswith_any url ["http://"; "https://"]
                       && is_Return (is_valid_image_url env url)
                    then requests w ++ [url] else requests w)).
  - by intros _ w' (_ & _ & Hr).
  - by intros _ w' (_ & _ & Hr).
  - by intros w' (_ & _ & Hr).
Qed.

(** ** How a download ends *)

Lemma wp_returns {A} (m : M A) (Q : A → World → Prop) w :
  wp m Q (λ _ _, False) (λ _, False) w → ∃ a w', m w = (Return a, w') ∧ Q a w'.
Proof. unfold wp. destruct (m w) as [[a|e|] w']; [by eauto|done..]. Qed.

Lemma is_valid_image_url_total env url :
  is_Return (UrlLib.urlparse env url) = true →
  ∃ valid, is_valid_image_url env url = Return valid.
Proof.
  unfold is_valid_image_url. destruct (UrlLib.urlparse env url) as [r| |]; [|done..].
  by eexists.
Qed.





(** X5.  An error status ends the download before any file is touched.
    When the response has a status from 400 to 599, [download_image]
    prints the HTTP error and returns [False]; files and directories are as
    before and the one request has been issued. *)
Theorem download_image_http_error (env : Env) (url directory : string) (w : World)
    (r : Response) :
  PyStr.startswith_any url ["http://"; "https://"] = true →
  is_Return (UrlLib.urlparse env url) = true →
  http_get env url = Return r →
  400 ≤ status_code r < 600 →
  ∃ w' msg,
    download_image env url directory w = (Return false, w')
    ∧ files w' = files w ∧ dirs w' = dirs w
    ∧ requests w' = requests w ++ [url]
    ∧ last (stdout w') = Some ("✗ HTTP Error: " +:+ msg).
Proof.
  intros Hgate Hparse Hget Hstatus.
  destruct (is_valid_image_url_total env url Hparse) as [valid Hvalid].
  assert (Hwp : wp (download_image env url directory)
    (λ b w', b = false ∧ files w' = files w ∧ dirs w' = dirs w
             ∧ requests w' = requests w ++ [url]
             ∧ ∃ msg, last (stdout w') = Some ("✗ HTTP Error: " +:+ msg))
    (λ _ _, False) (λ _, False) w).
  { apply wp_download_image; [congruence|]. intros _. rewrite Hvalid.
    apply wp_download_body. cbv zeta. rewrite Hget. split; [|lia]. intros _ msg.
    cbn [download_handlers]. wp_steps.
    split; [done|]. destruct (negb valid); cbn; repeat split; try done;
      exists msg; by rewrite last_snoc. }
  apply wp_returns in Hwp as (b & w' & Hrun & -> & Hf & Hd & Hr & msg & Hlast).
  by exists w', msg.
Qed.

Lemma download_image_http_error_witness :
  ∃ w', download_image (sample_env (Return EmptyString))
          "https://example.com/missing.png" "Fetched_Images" empty_world
        = (Return false, w') ∧ files w' = ∅.
Proof.
  destruct (download_image_http_error (sample_env (Return EmptyString))
              "https://example.com/missing.png" "Fetched_Images" empty_world
              {| status_code := 404; reason := "Not Found";
                 resp_url := "https://example.com/missing.png";
                 headers := ∅; chunks := []; stream_error := None |})
    as (w' & msg & Hrun & Hfiles & _).
  - vm_compute. reflexivity.
  - vm_compute. reflexivity.
  - vm_compute. reflexivity.
  - vm_compute. lia.
  - exists w'. split; [exact Hrun|exact Hfiles].
Defined.

(** X6.  A request that fails ends the download before any file is touched.
    When [requests.get] raises an [Exception], [download_image] returns
    [False] with files and directories as before.  What is printed follows
    the order of the [except] clauses: every [ConnectionError], a
    [ConnectTimeout] among them, gives the line of the connection error,
    and a [Timeout] gives the line of the timeout only when it is not a
    [ConnectionError] as well. *)
Theorem download_image_request_failure (env : Env) (url directory : string) (w : World)
    (e : exn) :
  PyStr.startswith_any url ["http://"; "https://"] = true →
  is_Return (UrlLib.urlparse env url) = true →
  http_get env url = Raise e →
  is_Exception e = true →
  ∃ w',
    download_image env url directory w = (Return false, w')
    ∧ files w' = files w ∧ dirs w' = dirs w
    ∧ requests w' = requests w ++ [url]
    ∧ (is_ConnectionError e = true →
       last (stdout w') = Some "✗ Connection Error: Unable to connect to the server")
    ∧ (is_Timeout e = true →
       last (stdout w')
       = Some (if is_ConnectionError e
               then "✗ Connection Error: Unable to connect to the server"
               else "✗ Timeout Error: Request took too long")).
Proof.
  intros Hgate Hparse Hget He.
  destruct (is_valid_image_url_total env url Hparse) as [valid Hvalid].
  assert (Hwp : wp (download_image env url directory)
    (λ b w', b = false ∧ files w' = files w ∧ dirs w' = dirs w
             ∧ requests w' = requests w ++ [url]
             ∧ (is_ConnectionError e = true →
                  last (stdout w')
                  = Some "✗ Connection Error: Unable to connect to the server")
             ∧ (is_Timeout e = true →
                  last (stdout w')
                  = Some (if is_ConnectionError e
                          then "✗ Connection Error: Unable to connect to the server"
                          else "✗ Timeout Error: Request took too long")))
    (λ _ _, False) (λ _, False) w).
  { apply wp_download_image; [congruence|]. intros _. rewrite Hvalid.
    apply wp_download_body. cbv zeta. rewrite Hget.
    destruct e; try done; handlers_cbn; wp_steps;
      (split; [done|]); destruct (negb valid); cbn; repeat split; try done;
      intros _; by rewrite last_snoc. }
  apply wp_returns in Hwp as (b & w' & Hrun & -> & H). by exists w'.
Qed.

Lemma download_image_request_failure_witness :
  ∃ w', download_image (slow_env (Return EmptyString))
          "https://slow.invalid/a.png" "Fetched_Images" empty_world
        = (Return false, w')
        ∧ last (stdout w') = Some "✗ Connection Error: Unable to connect to the server".
Proof.
  destruct (download_image_request_failure (slow_env (Return EmptyString))
              "https://slow.invalid/a.png" "Fetched_Images" empty_world
              (ConnectTimeout "Connection to slow.invalid timed out"))
    as (w' & Hrun & _ & _ & _ & _ & Htime).
  - vm_compute. reflexivity.
  - vm_compute. reflexivity.
  - vm_compute. reflexivity.
  - reflexivity.
  - exists w'. split; [exact Hrun|]. by apply Htime.
Defined.





(** X10.  [download_image] turns every [Exception] into [False].  In an
    environment that raises instances of [Exception] only, and for a URL
    that [urlparse] accepts, [download_image] ends and returns a Boolean,
    for every directory and world: nothing is raised to the caller. *)
Theorem download_image_catches_exceptions (env : Env) (url directory : string)
    (w : World) :
  uninterrupted env →
  is_Return (UrlLib.urlparse env url) = true →
  ∃ b w', download_image env url directory w = (Return b, w').
Proof. intros Henv Hparse. by apply download_image_returns_bool. Qed.

Lemma download_image_catches_exceptions_witness :
  ∃ b w', download_image (sample_env (Return EmptyString))
            "https://nowhere.invalid/a.png" "Fetched_Images" empty_world = (Return b, w').
Proof.
  apply (download_image_catches_exceptions (sample_env (Return EmptyString))).
  - split; [|split].
    + intros url. unfold sample_env, http_get, sample_http_get.
      repeat case_match; try done; simplify_eq; done.
    + intros p e He. discriminate He.
    + intros p n e He. discriminate He.
  - vm_compute. reflexivity.
Defined.

(** X4.  [True] means the whole body is on disk.  Whenever
    [download_image] returns [True], the request returned a response whose
    stream ended without error, and a file that did not exist before holds
    all its chunks, in order. *)
Theorem download_image_true_only_if_complete (env : Env) (url directory : string)
    (w w' : World) :
  download_image env url directory w = (Return true, w') →
  ∃ r name,
    http_get env url = Return r
    ∧ stream_error r = None
    ∧ OsPath.exists_ w (OsPath.join directory name) = false
    ∧ files w' !! OsPath.join directory name
      = Some (foldr String.append EmptyString (chunks r)).
Proof. apply download_image_true_complete. Qed.

Lemma download_image_true_only_if_complete_witness :
  ∃ r name,
    http_get (sample_env (Return EmptyString)) "https://example.com/download" = Return r
    ∧ stream_error r = None
    ∧ OsPath.exists_ empty_world (OsPath.join "Fetched_Images" name) = false
    ∧ files (download_image (sample_env (Return EmptyString))
               "https://example.com/download" "Fetched_Images" empty_world).2
        !! OsPath.join "Fetched_Images" name
      = Some (foldr String.append EmptyString (chunks r)).
Proof.
  apply (download_image_true_only_if_complete (sample_env (Return EmptyString))
           "https://example.com/download" "Fetched_Images" empty_world).
  vm_compute. reflexivity.
Defined.

(** X11.  Two downloads keep two files.  When [download_image] returns
    [True] twice in a row for one URL and directory, the two files are at
    different paths and after the second call both hold the body: the
    second download is renamed, the first is not replaced. *)
Theorem download_twice_keeps_both (env : Env) (url directory : string)
    (w w1 w2 : World) :
  download_image env url directory w = (Return true, w1) →
  download_image env url directory w1 = (Return true, w2) →
  ∃ r name1 name2,
    http_get env url = Return r
    ∧ OsPath.join directory name1 ≠ OsPath.join directory name2
    ∧ files w2 !! OsPath.join directory name1
      = Some (foldr String.append EmptyString (chunks r))
    ∧ files w2 !! OsPath.join directory name2
      = Some (foldr String.append EmptyString (chunks r)).
Proof.
  intros Hfirst Hsecond.
  destruct (download_image_true_complete _ _ _ _ _ Hfirst)
    as (r & name1 & Hget & _ & _ & Hfile1).
  destruct (download_image_true_complete _ _ _ _ _ Hsecond)
    as (r' & name2 & Hget' & _ & Hfree2 & Hfile2).
  rewrite Hget in Hget'. injection Hget' as <-.
  exists r, name1, name2. split; [done|]. split; [|split; [|done]].
  - intros Hsame. unfold OsPath.exists_ in Hfree2.
    apply orb_false_iff in Hfree2 as [_ Hfree2].
    apply bool_decide_eq_false in Hfree2. apply Hfree2.
    rewrite <- Hsame, Hfile1. by eexists.
  - pose proof (wp_run _ _ _ _ _ (download_image_footprint env url directory w1)
                  (λ w', ∀ p c, files w1 !! p = Some c → files w' !! p = Some c)) as Hkeep.
    rewrite Hsecond in Hkeep. cbn [snd] in Hkeep. apply Hkeep; [..|done].
    + by intros _ w' (_ & Hf & _).
    + by intros _ w' (_ & Hf & _).
    + by intros w' (_ & Hf & _).
Qed.

Lemma download_twice_keeps_both_witness :
  ∃ r name1 name2,
    http_get (sample_env (Return EmptyString)) "https://example.com/path/photo.jpeg?x=1"
    = Return r
    ∧ OsPath.join "Fetched_Images" name1 ≠ OsPath.join "Fetched_Images" name2
    ∧ files (download_image (sample_env (Return EmptyString))
               "https://example.com/path/photo.jpeg?x=1" "Fetched_Images"
               (download_image (sample_env (Return EmptyString))
                  "https://example.com/path/photo.jpeg?x=1" "Fetched_Images"
                  empty_world).2).2
        !! OsPath.join "Fetched_Images" name1
      = Some (foldr String.append EmptyString (chunks r))
    ∧ files (download_image (sample_env (Return EmptyString))
               "https://example.com/path/photo.jpeg?x=1" "Fetched_Images"
               (download_image (sample_env (Return EmptyString))
                  "https://example.com/path/photo.jpeg?x=1" "Fetched_Images"
                  empty_world).2).2
        !! OsPath.join "Fetched_Images" name2
      = Some (foldr String.append EmptyString (chunks r)).
Proof.
  apply (download_twice_keeps_both (sample_env (Return EmptyString))
           "https://example.com/path/photo.jpeg?x=1" "Fetched_Images" empty_world
           (download_image (sample_env (Return EmptyString))
              "https://example.com/path/photo.jpeg?x=1" "Fetched_Images" empty_world).2).
  - vm_compute. reflexivity.
  - vm_compute. reflexivity.
Defined.

(** X12.  The collision loop, for every name.  [avoid_collision] ends and
    leaves the world as it was.  It returns the name itself when nothing
    exists at its path; otherwise it returns root, underscore, number and
    extension, where root and extension are those of [os.path.splitext]
    (together they are the name) and the number is the least from 1 on
    whose path does not exist.  At the path returned nothing exists. *)
Theorem avoid_collision_fresh (directory filename : string) (w : World) :
  ∃ name,
    avoid_collision directory filename w = (Return (name, OsPath.join directory name), w)
    ∧ OsPath.exists_ w (OsPath.join directory name) = false
    ∧ (OsPath.exists_ w (OsPath.join directory filename) = false → name = filename)
    ∧ (OsPath.exists_ w (OsPath.join directory filename) = true →
       ∃ root extension k,
         OsPath.splitext filename = (root, extension)
         ∧ root +:+ extension = filename
         ∧ 1 ≤ k
         ∧ name = root +:+ "_" +:+ PyStr.of_nat k +:+ extension
         ∧ ∀ j, 1 ≤ j < k →
             OsPath.exists_ w
               (OsPath.join directory (root +:+ "_" +:+ PyStr.of_nat j +:+ extension))
             = true).
Proof.
  pose proof (splitext_app filename) as Happ.
  destruct (avoid_collision_spec directory filename w)
    as [[Hfree Hrun]|[Htaken (k & Hk & Hrun & Hfree & Hbelow)]].
  - exists filename. split; [done|]. split; [done|]. split; [done|]. congruence.
  - destruct (OsPath.splitext filename) as [root extension] eqn:Hsplit.
    cbn [fst snd] in *.
    exists (numbered_name root extension k). split; [done|]. split; [done|].
    split; [congruence|]. intros _. by exists root, extension, k.
Qed.

(** ** The entry point *)

(** [main] once the directory is ensured: the [try] statement runs in the
    world in which the banner and the line about the directory are
    printed. *)
Lemma main_after_directory env w :
  (makedirs env "Fetched_Images" w).1 = Return tt →
  main env w
  = try_except (main_body env "Fetched_Images") main_handlers
      (create_directory env "Fetched_Images" (banner w).2).2
  ∧ requests (create_directory env "Fetched_Images" (banner w).2).2 = requests w
  ∧ files (create_directory env "Fetched_Images" (banner w).2).2 = files w.
Proof.
  intros Hdir. rewrite main_unfold.
  assert (Hdir' : (makedirs env "Fetched_Images" (banner w).2).1 = Return tt).
  { by rewrite (makedirs_outcome_ext env _ _ w). }
  split.
  - by rewrite (create_directory_success _ _ _ Hdir').
  - split.
    + rewrite (keeps_create_directory requests (λ _ _, eq_refl) (λ _ _, eq_refl)).
      apply (keeps_banner requests (λ _ _, eq_refl)).
    + rewrite (keeps_create_directory files (λ _ _, eq_refl) (λ _ _, eq_refl)).
      apply (keeps_banner files (λ _ _, eq_refl)).
Qed.

(** X16.  Input that is cut short ends the program quietly.  When the
    directory is ensured and [input()] raises [KeyboardInterrupt] or
    [EOFError], [main] returns after printing its farewell for that case;
    no request is issued and no file is written. *)
Theorem main_input_interrupted (env : Env) (w : World) (e : exn) :
  (makedirs env "Fetched_Images" w).1 = Return tt →
  stdin env = Raise e →
  e = KeyboardInterrupt ∨ e = EOFError →
  ∃ w',
    main env w = (Return tt, w')
    ∧ requests w' = requests w ∧ files w' = files w
    ∧ last (stdout w')
      = Some (nl +:+ nl +:+
              match e with
              | KeyboardInterrupt => "👋 Operation cancelled by user. Goodbye!"
              | _ => "👋 No input provided. Exiting."
              end).
Proof.
  intros Hdir Hin He.
  destruct (main_after_directory env w Hdir) as (-> & Hr & Hf).
  generalize dependent (create_directory env "Fetched_Images" (banner w).2).2.
  intros wd Hr Hf.
  unfold try_except, main_body. rewrite M_bind_unfold. unfold input. rewrite Hin.
  destruct He as [-> | ->]; cbn [main_handlers print]; eexists;
    (split; [reflexivity|]); cbn; by rewrite last_snoc.
Qed.

Lemma main_input_interrupted_witness :
  ∃ w', main (sample_env (Raise EOFError)) empty_world = (Return tt, w')
        ∧ requests w' = [].
Proof.
  destruct (main_input_interrupted (sample_env (Raise EOFError)) empty_world EOFError)
    as (w' & Hrun & Hr & _).
  - vm_compute. reflexivity.
  - reflexivity.
  - by right.
  - by exists w'.
Defined.

(** X17.  [main] downloads the line it read, stripped, into
    [Fetched_Images], and reports what [download_image] returned.  When the
    directory is ensured and the line is not blank, [main] runs
    [download_image] on the stripped line in the world after the prompt,
    prints the success line when it returned [True] and the failure line
    when it returned [False], and returns. *)
Theorem main_reports_outcome (env : Env) (w w2 : World) (line : string) (b : bool) :
  (makedirs env "Fetched_Images" w).1 = Return tt →
  stdin env = Return line →
  PyStr.strip_ws line ≠ EmptyString →
  download_image env (PyStr.strip_ws line) "Fetched_Images"
    (input env "🌐 Please enter the image URL: "
       (create_directory env "Fetched_Images" (banner w).2).2).2
  = (Return b, w2) →
  main env w
  = (Return tt,
     set_stdout
       (stdout w2
        ++ [if b then "🎉 Download completed successfully!"
            else "❌ Download failed. Please check the URL and try again."]) w2).
Proof.
  intros Hdir Hin Hline Hrun.
  destruct (main_after_directory env w Hdir) as (-> & _ & _).
  generalize dependent (create_directory env "Fetched_Images" (banner w).2).2.
  intros wd Hrun.
  unfold try_except, main_body. rewrite M_bind_unfold.
  unfold input in *. rewrite Hin in *. cbn [snd] in Hrun.
  apply String.eqb_neq in Hline. rewrite Hline.
  rewrite M_bind_unfold, Hrun. by destruct b.
Qed.

Lemma main_reports_outcome_witness :
  ∃ w2, main (sample_env (Return padded_line)) empty_world
        = (Return tt,
           set_stdout
             (stdout w2 ++ ["❌ Download failed. Please check the URL and try again."]) w2).
Proof.
  eexists.
  apply (main_reports_outcome (sample_env (Return padded_line))
           empty_world _ padded_line false).
  - vm_compute. reflexivity.
  - reflexivity.
  - vm_compute. discriminate.
  - vm_compute. reflexivity.
Defined.

(** X18.  [main] ends without an exception when nothing interrupts the run
    and [urlparse] accepts the line.  In an environment that raises
    instances of [Exception] only, where [input()] returns a line whose
    stripped form [urlparse] accepts, or raises [KeyboardInterrupt] or
    [EOFError], [main] returns: every failure of the directory, the request
    and the file has been turned into printed lines. *)
Theorem main_ends_cleanly (env : Env) (w : World) :
  uninterrupted env →
  (∀ name e, mkdir_error env name = Some e → is_Exception e = true) →
  match stdin env with
  | Return line => is_Return (UrlLib.urlparse env (PyStr.strip_ws line)) = true
  | Raise e => e = KeyboardInterrupt ∨ e = EOFError
  | Diverge => False
  end →
  (main env w).1 = Return tt.
Proof.
  intros Henv Hmkdir Hin.
  destruct (makedirs env "Fetched_Images" w).1 as [[]|e|] eqn:Hdir.
  - destruct (main_after_directory env w Hdir) as (-> & _ & _).
    generalize (create_directory env "Fetched_Images" (banner w).2).2. intros wd.
    unfold try_except, main_body. rewrite M_bind_unfold. unfold input.
    destruct (stdin env) as [line|e|]; [| |done].
    + destruct (String.eqb (PyStr.strip_ws line) EmptyString); [done|].
      rewrite M_bind_unfold.
      destruct (download_image_returns_bool env Henv (PyStr.strip_ws line)
                  "Fetched_Images" (set_stdout (stdout wd ++ ["🌐 Please enter the image URL: "]) wd)
                  Hin) as (b & w' & ->).
      by destruct b.
    + by destruct Hin as [-> | ->].
  - apply main_requests_after_directory_failure.
    apply (create_directory_failure env _ _ e).
    + by rewrite (makedirs_outcome_ext env _ _ w).
    + revert Hdir. unfold makedirs. repeat case_match; intros; simplify_eq/=; eauto.
  - by apply makedirs_not_diverge in Hdir.
Qed.

Lemma main_ends_cleanly_witness :
  (main (sample_env (Return padded_line)) empty_world).1 = Return tt.
Proof.
  apply (main_ends_cleanly (sample_env (Return padded_line)) empty_world).
  - split; [|split].
    + intros url. unfold sample_env, http_get, sample_http_get.
      repeat case_match; try done; simplify_eq; done.
    + intros p e He. discriminate He.
    + intros p n e He. discriminate He.
  - intros name e He. discriminate He.
  - vm_compute. reflexivity.
Defined.

(** ** Names taken from the URL *)

Lemma mem_app c s t : PyStr.mem c (s +:+ t) = PyStr.mem c s || PyStr.mem c t.
Proof.
  induction s as [|d s IH]; [done|]. rewrite app_cons. cbn [PyStr.mem].
  by destruct (Ascii.eqb c d).
Qed.













(** ** Names taken from the content-disposition header *)

Lemma contains_app sep pre rest : PyStr.contains sep (pre +:+ sep +:+ rest) = true.
Proof.
  induction pre as [|c pre IH].
  - rewrite app_nil_l.
    assert (Hp : String.prefix sep (sep +:+ rest) = true).
    { apply (startswith_spec (sep +:+ rest) sep). by exists rest. }
    destruct (sep +:+ rest); cbn [PyStr.contains]; by rewrite Hp.
  - rewrite app_cons. cbn [PyStr.contains]. rewrite IH. by destruct (String.prefix _ _).
Qed.

(** A text without the separator is one piece. *)
Lemma split_go_no_sep sep : ∀ s piece,
  PyStr.contains sep s = false → PyStr.split_go sep 0 piece s = [piece +:+ s].
Proof.
  induction s as [|c s IH]; intros piece Hs; cbn [PyStr.split_go].
  - by rewrite app_nil_r.
  - cbn [PyStr.contains] in Hs. destruct (String.prefix sep (String c s)); [done|].
    rewrite IH by done. by rewrite app_assoc'.
Qed.

Lemma no_equals_no_separator s :
  PyStr.mem "=" s = false → PyStr.contains "filename=" s = false.
Proof.
  induction s as [|c s IH]; intros Hs; cbn [PyStr.contains].
  - done.
  - destruct (String.prefix "filename=" (String c s)) eqn:Hp.
    + apply (startswith_spec (String c s) "filename=") in Hp as [rest Hrest].
      rewrite Hrest in Hs. by rewrite !mem_app in Hs.
    + apply IH. cbn [PyStr.mem] in Hs. by destruct (Ascii.eqb "=" c).
Qed.

Lemma split_attachment rest :
  PyStr.split ("attachment; filename=" +:+ rest) "filename="
  = "attachment; " :: PyStr.split_go "filename=" 0 EmptyString rest.
Proof. destruct rest; vm_compute; reflexivity. Qed.

Lemma length_lstrip s chars : String.length (PyStr.lstrip s chars) ≤ String.length s.
Proof.
  induction s as [|c s IH]; [done|]. cbn [PyStr.lstrip].
  destruct (PyStr.mem c chars); cbn [String.length]; lia.
Qed.

Lemma lstrip_fixed s chars :
  PyStr.lstrip s chars = s →
  match s with EmptyString => True | String c _ => PyStr.mem c chars = false end.
Proof.
  destruct s as [|c s]; [done|]. cbn [PyStr.lstrip].
  destruct (PyStr.mem c chars); [|done]. intros H.
  pose proof (length_lstrip s chars) as Hlen. rewrite H in Hlen. cbn in Hlen. lia.
Qed.

Lemma rstrip_snoc s q chars :
  PyStr.mem q chars = true →
  PyStr.rstrip (s +:+ String q EmptyString) chars = PyStr.rstrip s chars.
Proof.
  intros Hq. induction s as [|c s IH].
  - rewrite app_nil_l. cbn [PyStr.rstrip]. by rewrite Hq.
  - rewrite app_cons. cbn [PyStr.rstrip]. by rewrite IH.
Qed.

(** Stripping the quotes from a quoted name gives the name, when the name
    itself neither starts nor ends with a quote. *)
Lemma strip_quoted n :
  PyStr.lstrip n (dquote +:+ "'") = n → PyStr.rstrip n (dquote +:+ "'") = n →
  PyStr.strip (dquote +:+ n +:+ dquote) (dquote +:+ "'") = n.
Proof.
  intros Hl Hr. unfold PyStr.strip.
  change (dquote +:+ n +:+ dquote) with (String "034" (n +:+ dquote)).
  cbn [PyStr.lstrip]. change (PyStr.mem "034" (dquote +:+ "'")) with true. cbv iota.
  apply lstrip_fixed in Hl. destruct n as [|c n].
  - reflexivity.
  - rewrite app_cons. cbn [PyStr.lstrip]. rewrite Hl. rewrite <- app_cons.
    unfold dquote at 1. by rewrite rstrip_snoc.
Qed.

(** X14.  A name in the content-disposition header is used as it stands.
    For every name without an equals sign that neither starts nor ends
    with a quote, the header [attachment; filename="<name>"] makes the
    resolution return that name, completed by [ensure_extension], whatever
    the URL is.  Directory parts of the name are kept: when the name starts
    with a slash, [os.path.join] returns it alone, so the path of the file
    is outside the target directory. *)
Theorem disposition_name_used_verbatim (env : Env) (url content_type name : string) :
  PyStr.mem "=" name = false →
  PyStr.lstrip name (dquote +:+ "'") = name →
  PyStr.rstrip name (dquote +:+ "'") = name →
  resolve_filename env url ("attachment; filename=" +:+ dquote +:+ name +:+ dquote)
    content_type
  = Return (ensure_extension env name content_type)
  ∧ (PyStr.startswith name "/" = true →
     ∀ directory,
       OsPath.join directory (ensure_extension env name content_type)
       = ensure_extension env name content_type).
Proof.
  intros Heq Hl Hr. split.
  - unfold resolve_filename, get_filename.
    assert (Hc : PyStr.contains "filename="
                   ("attachment; filename=" +:+ dquote +:+ name +:+ dquote) = true).
    { exact (contains_app "filename=" "attachment; " (dquote +:+ name +:+ dquote)). }
    rewrite Hc, split_attachment, split_go_no_sep.
    + rewrite app_nil_l. cbn [PyStr.last List.last].
      rewrite strip_quoted by done. reflexivity.
    + apply no_equals_no_separator. rewrite !mem_app, Heq. reflexivity.
  - intros Hslash directory.
    assert (Hstart : PyStr.startswith (ensure_extension env name content_type) "/" = true).
    { apply startswith_spec in Hslash as [rest ->]. apply startswith_spec.
      unfold ensure_extension. destruct (negb _); [|by exists rest].
      destruct (guess_extension env _) as [[|c ext]|]; eexists; by rewrite app_assoc'. }
    unfold OsPath.join. by rewrite Hstart.
Qed.

Lemma disposition_name_used_verbatim_witness :
  resolve_filename (sample_env (Return EmptyString)) "https://example.com/download"
    ("attachment; filename=" +:+ dquote +:+ "/tmp/cat.png" +:+ dquote) "image/png"
  = Return "/tmp/cat.png"
  ∧ OsPath.join "Fetched_Images" "/tmp/cat.png" = "/tmp/cat.png".
Proof.
  destruct (disposition_name_used_verbatim (sample_env (Return EmptyString))
              "https://example.com/download" "image/png" "/tmp/cat.png")
    as [Hname Hpath].
  - vm_compute. reflexivity.
  - vm_compute. reflexivity.
  - vm_compute. reflexivity.
  - split; [exact Hname|]. apply (Hpath eq_refl "Fetched_Images").
Defined.

(** ** A write that fails *)



(** ** The check of the URL and the name *)

Lemma split_go_not_nil sep : ∀ s skip piece, PyStr.split_go sep skip piece s ≠ [].
Proof.
  induction s as [|d s IH]; intros skip piece; cbn [PyStr.split_go]; [done|].
  destruct skip; [|apply IH]. destruct (String.prefix sep (String d s)); [done|apply IH].
Qed.

Lemma last_cons_not_nil {X} (x d : X) l : l ≠ [] → List.last (x :: l) d = List.last l d.
Proof. by destruct l. Qed.

(** The last piece of a split at a slash is the end of the text, and what
    precedes it is empty or ends in a slash. *)
Lemma split_go_last_suffix : ∀ s piece,
  PyStr.mem "/" piece = false →
  ∃ pre, piece +:+ s = pre +:+ List.last (PyStr.split_go "/" 0 piece s) EmptyString
         ∧ (pre = EmptyString ∨ ∃ pre', pre = pre' +:+ "/").
Proof.
  induction s as [|d s IH]; intros piece Hpiece; cbn [PyStr.split_go].
  - exists EmptyString. split; [by rewrite app_nil_r|by left].
  - cbn [String.prefix]. destruct (ascii_dec "/" d) as [<-|Hne].
    + rewrite prefix_nil. change (String.length "/" - 1) with 0.
      destruct (IH EmptyString eq_refl) as (pre & Hpre & Hshape).
      rewrite app_nil_l in Hpre.
      rewrite last_cons_not_nil by apply split_go_not_nil.
      exists (piece +:+ "/" +:+ pre). split.
      * by rewrite !app_assoc', <- Hpre.
      * right. destruct Hshape as [->|[pre' ->]].
        -- exists piece. by rewrite app_nil_r.
        -- exists (piece +:+ "/" +:+ pre'). by rewrite !app_assoc'.
    + destruct (IH (piece +:+ String d EmptyString)) as (pre & Hpre & Hshape).
      { rewrite mem_app, Hpiece. cbn [PyStr.mem]. by destruct (Ascii.eqb_spec "/" d). }
      exists pre. split; [|done]. by rewrite <- Hpre, app_assoc'.
Qed.

(** A suffix without a slash of a text with a slash lies after the slash. *)
Lemma endswith_after_slash ext b : ∀ a,
  PyStr.mem "/" ext = false →
  PyStr.endswith (a +:+ "/" +:+ b) ext = true → PyStr.endswith b ext = true.
Proof.
  intros a Hext. induction a as [|c a IH].
  - rewrite app_nil_l. change ("/" +:+ b) with (String "/" b). cbn [PyStr.endswith].
    destruct (String.eqb_spec (String "/" b) ext) as [<-|_]; [|done].
    cbn [PyStr.mem] in Hext. by rewrite Ascii.eqb_refl in Hext.
  - rewrite app_cons. cbn [PyStr.endswith].
    destruct (String.eqb_spec (String c (a +:+ "/" +:+ b)) ext) as [<-|_]; [|done].
    rewrite <- app_cons, !mem_app in Hext. cbn in Hext.
    by rewrite orb_true_r in Hext.
Qed.

(** X15.  A URL that passes the extension check keeps its last segment as
    the name.  When [is_valid_image_url] is true for a URL whose path has a
    slash and no percent escape, and the response names no file, the
    resolved name is the last segment of the path, as it is written in the
    URL: nothing is generated and no extension is appended. *)
Theorem valid_url_keeps_segment
    (env : Env) (url content_disposition content_type : string) (r : UrlLib.ParseResult) :
  UrlLib.urlparse env url = Return r →
  PyStr.mem "/" (UrlLib.path r) = true →
  PyStr.mem "%" (UrlLib.path r) = false →
  is_valid_image_url env url = Return true →
  PyStr.contains "filename=" content_disposition = false →
  resolve_filename env url content_disposition content_type
  = Return (PyStr.last (PyStr.split (UrlLib.path r) "/"))
  ∧ PyStr.endswith (UrlLib.path r) (PyStr.last (PyStr.split (UrlLib.path r) "/")) = true.
Proof.
  intros Hparse Hslash Hpercent Hvalid Hcd.
  set (segment := PyStr.last (PyStr.split (UrlLib.path r) "/")).
  destruct (split_go_last_suffix (UrlLib.path r) EmptyString eq_refl)
    as (pre & Hpre & Hshape).
  rewrite app_nil_l in Hpre. fold (PyStr.split (UrlLib.path r) "/") in Hpre.
  fold (PyStr.last (PyStr.split (UrlLib.path r) "/")) in Hpre. fold segment in Hpre.
  assert (Hends : PyStr.endswith (UrlLib.path r) segment = true).
  { rewrite Hpre. apply endswith_app. }
  split; [|done].
  (* the segment ends in an image extension *)
  assert (Hv : existsb (PyStr.endswith (PyStr.lower (UrlLib.path r))) image_extensions
               = true).
  { unfold is_valid_image_url in Hvalid. rewrite Hparse in Hvalid.
    cbn [mbind outcome_bind] in Hvalid. unfold mret, outcome_ret in Hvalid.
    congruence. }
  assert (Hseg : existsb (PyStr.endswith (PyStr.lower segment)) image_extensions = true).
  { apply existsb_exists in Hv as (ext & Hin & Hext).
    apply existsb_exists. exists ext. split; [done|].
    destruct Hshape as [->|[pre' ->]].
    - by rewrite app_nil_l in Hpre; rewrite <- Hpre.
    - rewrite Hpre, app_assoc', !lower_app in Hext.
      apply (endswith_after_slash ext (PyStr.lower segment) (PyStr.lower pre')); [|done].
      apply list_elem_of_In in Hin. unfold image_extensions in Hin.
      repeat (apply elem_of_cons in Hin as [->|Hin]; [done|]).
      by apply elem_of_nil in Hin. }
  assert (Hdot : PyStr.mem "." segment = true ∧ segment ≠ EmptyString).
  { apply existsb_exists in Hseg as (ext & Hin & Hext).
    apply endswith_spec in Hext as [p Hp].
    assert (Hlow : PyStr.mem "." (PyStr.lower segment) = true
                   ∧ PyStr.lower segment ≠ EmptyString).
    { rewrite Hp. apply list_elem_of_In in Hin. unfold image_extensions in Hin.
      repeat (apply elem_of_cons in Hin as [->|Hin];
              [split; [rewrite mem_app; cbn; by rewrite orb_true_r|by destruct p]|]).
      by apply elem_of_nil in Hin. }
    destruct Hlow as [Hlow Hne]. split; [|by intros Heq; rewrite Heq in Hne].
    clear -Hlow. induction segment as [|c s IH]; [done|].
    cbn [PyStr.lower PyStr.mem] in *.
    destruct (Ascii.eqb_spec "." c) as [|Hc]; [done|].
    destruct (Ascii.eqb_spec "." (PyStr.lower_char c)) as [Hl|_]; [|by apply IH].
    exfalso. apply Hc. unfold PyStr.lower_char in Hl.
    destruct (PyStr.is_upper c) eqn:Hup; [|done].
    unfold PyStr.is_upper in Hup. apply andb_true_iff in Hup as [Hlo Hhi].
    apply Nat.leb_le in Hlo, Hhi.
    apply (f_equal nat_of_ascii) in Hl. rewrite nat_ascii_embedding in Hl by lia.
    change (nat_of_ascii ".") with 46 in Hl. lia. }
  destruct Hdot as [Hdot Hne].
  unfold resolve_filename, get_filename. rewrite Hcd.
  unfold extract_filename_from_url. rewrite Hparse.
  cbn [mbind outcome_bind mret outcome_ret].
  unfold UrlLib.unquote. rewrite Hpercent. cbn [negb]. fold segment.
  rewrite Hslash, Hdot.
  assert (Hpath : String.eqb (UrlLib.path r) EmptyString = false).
  { apply String.eqb_neq. intros Heq. by rewrite Heq in Hslash. }
  apply String.eqb_neq in Hne. rewrite Hpath, Hne. cbn [negb andb].
  change (Return (ensure_extension env segment content_type) = Return segment).
  unfold ensure_extension. by rewrite Hseg.
Qed.

Lemma valid_url_keeps_segment_witness :
  resolve_filename (sample_env (Return EmptyString)) "https://example.com/a/Cat.PNG?s=1"
    EmptyString "text/html" = Return "Cat.PNG".
Proof.
  apply (valid_url_keeps_segment (sample_env (Return EmptyString))
           "https://example.com/a/Cat.PNG?s=1" EmptyString "text/html"
           {| UrlLib.scheme := "https"; UrlLib.netloc := "example.com";
              UrlLib.path := "/a/Cat.PNG"; UrlLib.params := EmptyString;
              UrlLib.query := "s=1"; UrlLib.fragment := EmptyString |});
    vm_compute; reflexivity.
Defined.
